(** * create-playwright: the project generator of
      [packages/create-playwright/src/index.ts]

    A shallow embedding of the generator ([class Generator], its private
    methods, [commandToRunTests] and the top-level entry point) together
    with the properties its specification states about it.

    Conventions of the embedding.
    - A JavaScript string is the list of its UTF-16 code units.
    - The values [JSON.parse] returns are a tagged union; an object is the
      list of its own properties in property order.
    - Code that throws, reads the file system or prints runs in a small
      state-and-exception monad over a [World]: the file system, the
      environment, and the trace of calls that leave the process (console
      output, prompts, shell commands, file creation).
    - Node's own functions whose result is not fixed by this program
      ([fs], [JSON], [enquirer], [ansi-colors], [path.relative]) and the
      helpers imported from [./utils] are fields of two records the
      development is parameterised by. *)

From Stdlib Require Import List NArith ZArith Bool Ascii String Lia.
From Stdlib Require Import Floats.PrimFloat.
Import ListNotations.

Set Implicit Arguments.
Set Warnings "-register-all".

(* ================================================================== *)
(** ** JavaScript strings *)

Module JSString.

(** A string is a sequence of UTF-16 code units. *)
Definition jsstring : Type := list N.

(** An ASCII literal of the source as a JavaScript string. *)
Definition js (s : string) : jsstring :=
  map N_of_ascii (list_ascii_of_string s).

Fixpoint str_eqb (a b : jsstring) : bool :=
  match a, b with
  | [], [] => true
  | x :: a', y :: b' => N.eqb x y && str_eqb a' b'
  | _, _ => false
  end.

(** [s.startsWith(p)] *)
Fixpoint startsWith (s p : jsstring) {struct p} : bool :=
  match p, s with
  | [], _ => true
  | _ :: _, [] => false
  | x :: p', y :: s' => N.eqb x y && startsWith s' p'
  end.

(** [String.prototype.includes]: [p] occurs in [s] as a contiguous run of
    code units (the empty string occurs everywhere). *)
Fixpoint includes (s p : jsstring) : bool :=
  startsWith s p ||
  match s with
  | [] => false
  | _ :: s' => includes s' p
  end.

(** ECMAScript's WhiteSpace and LineTerminator code points, the ones
    [trimEnd] strips; all of them are single code units. *)
Definition is_whitespace (c : N) : bool :=
  existsb (N.eqb c)
    [9; 10; 11; 12; 13; 32; 160; 5760; 8232; 8233; 8239; 8287; 12288; 65279]%N
  || (N.leb 8192 c && N.leb c 8202).

(** [String.prototype.trimEnd] *)
Definition trimEnd (s : jsstring) : jsstring :=
  fold_right
    (fun c acc =>
       match acc with
       | [] => if is_whitespace c then [] else [c]
       | _ :: _ => c :: acc
       end)
    [] s.

(** Number of (possibly overlapping) occurrences of [p] in [s]. *)
Fixpoint occurrences (s p : jsstring) : nat :=
  (if startsWith s p then 1 else 0) +
  match s with
  | [] => 0
  | _ :: s' => occurrences s' p
  end.

(** [s.split(sep)] for a separator of one code unit: the pieces between
    its occurrences. *)
Fixpoint split_on (sep : N) (s : jsstring) : list jsstring :=
  match s with
  | [] => [[]]
  | c :: s' =>
      if N.eqb c sep then [] :: split_on sep s'
      else match split_on sep s' with
           | piece :: pieces => (c :: piece) :: pieces
           | [] => [[c]]
           end
  end.

(** The lines of a text: the pieces between line feeds. *)
Definition lines (s : jsstring) : list jsstring := split_on 10 s.

Definition count_line (l s : jsstring) : nat :=
  List.length (filter (str_eqb l) (lines s)).

End JSString.
Export JSString.

Arguments js s%_string.

(* ================================================================== *)
(** ** Node's [path.join] (POSIX flavour) *)

Module Path.

Definition SLASH : N := 47.

(** The segments of a path: the pieces between slashes. *)
Definition segments (p : jsstring) : list jsstring := split_on SLASH p.

Fixpoint join_with (sep : jsstring) (l : list jsstring) : jsstring :=
  match l with
  | [] => []
  | [s] => s
  | s :: l' => s ++ sep ++ join_with sep l'
  end.

(** One segment met by [normalizeString]; [stack] holds the segments kept
    so far, innermost first. *)
Definition normalize_step (allowAboveRoot : bool)
    (stack : list jsstring) (seg : jsstring) : list jsstring :=
  if str_eqb seg [] || str_eqb seg (js ".") then stack
  else if str_eqb seg (js "..") then
    match stack with
    | top :: rest =>
        if str_eqb top (js "..")
        then (if allowAboveRoot then js ".." :: stack else stack)
        else rest
    | [] => if allowAboveRoot then [js ".."] else []
    end
  else seg :: stack.

(** [normalizeString(path, allowAboveRoot, '/', isPosixPathSeparator)]:
    drops empty and [.] segments and resolves [..] against what precedes. *)
Definition normalizeString (p : jsstring) (allowAboveRoot : bool) : jsstring :=
  join_with [SLASH]
    (rev (fold_left (normalize_step allowAboveRoot) (segments p) [])).

(** [path.isAbsolute] *)
Definition isAbsolute (p : jsstring) : bool :=
  match p with
  | c :: _ => N.eqb c SLASH
  | [] => false
  end.

Definition trailingSeparator (p : jsstring) : bool :=
  match rev p with
  | c :: _ => N.eqb c SLASH
  | [] => false
  end.

(** [path.normalize] *)
Definition normalize (p : jsstring) : jsstring :=
  match p with
  | [] => js "."
  | _ :: _ =>
      let abs := isAbsolute p in
      let trailing := trailingSeparator p in
      let q := normalizeString p (negb abs) in
      match q with
      | [] => if abs then js "/" else if trailing then js "./" else js "."
      | _ :: _ =>
          let q := if trailing then q ++ js "/" else q in
          if abs then js "/" ++ q else q
      end
  end.

(** [path.join(...args)]: the non-empty arguments joined by a slash, then
    normalised; ['.'] when nothing is left. *)
Definition join (args : list jsstring) : jsstring :=
  match filter (fun a => negb (str_eqb a [])) args with
  | [] => js "."
  | a :: l => normalize (join_with [SLASH] (a :: l))
  end.

End Path.

(* ================================================================== *)
(** ** The values of [JSON.parse] *)

Module Json.

(** An array carries, beside its elements, the named properties assigned to
    it after parsing ([JSON.parse] creates none and [JSON.stringify] prints
    none). *)
Inductive value : Type :=
| VNull
| VBool (b : bool)
| VNum (n : float)
| VStr (s : jsstring)
| VArr (elems : list value) (named : list (jsstring * value))
| VObj (props : list (jsstring * value)).

(** Own-property lookup in property order; [None] is [undefined]. *)
Fixpoint lookup {A : Type} (k : jsstring) (l : list (jsstring * A)) : option A :=
  match l with
  | [] => None
  | (k', v) :: l' => if str_eqb k k' then Some v else lookup k l'
  end.

(** Assignment to a property: an existing key keeps its place, a new key
    goes last (the keys this program assigns are no array indices). *)
Fixpoint assign {A : Type} (k : jsstring) (v : A) (l : list (jsstring * A))
  : list (jsstring * A) :=
  match l with
  | [] => [(k, v)]
  | (k', v') :: l' =>
      if str_eqb k k' then (k, v) :: l' else (k', v') :: assign k v l'
  end.

(** [delete o[k]] *)
Definition remove {A : Type} (k : jsstring) (l : list (jsstring * A))
  : list (jsstring * A) :=
  filter (fun kv => negb (str_eqb k (fst kv))) l.

(** ToBoolean *)
Definition truthy (v : option value) : bool :=
  match v with
  | None => false
  | Some VNull => false
  | Some (VBool b) => b
  | Some (VNum n) => negb (PrimFloat.eqb n 0 || PrimFloat.is_nan n)
  | Some (VStr s) => negb (str_eqb s [])
  | Some (VArr _ _) => true
  | Some (VObj _) => true
  end.

(** What [JSON.stringify] prints of a value: everything but the named
    properties of arrays. *)
Fixpoint printed (v : value) : value :=
  match v with
  | VArr elems _ => VArr (map printed elems) []
  | VObj props => VObj (map (fun kv => let '(k, x) := kv in (k, printed x)) props)
  | _ => v
  end.

End Json.
Export Json.

(* ================================================================== *)
(** ** Exceptions *)

Module Exn.

Inductive Error : Type :=
| TypeError (message : jsstring)
| SyntaxError (message : jsstring)
| SystemError (code : jsstring) (path : jsstring)
| OtherError (message : jsstring).

(** The result of an expression that may throw. *)
Inductive outcome (A : Type) : Type :=
| Ok (a : A)
| Throw (e : Error).

Arguments Ok {A} a.
Arguments Throw {A} e.

Definition obind {A B : Type} (m : outcome A) (k : A -> outcome B) : outcome B :=
  match m with
  | Ok a => k a
  | Throw e => Throw e
  end.

End Exn.
Export Exn.

Notation "x <-- m ;; k" := (obind m (fun x => k))
  (at level 61, m at next level, right associativity).

(* ================================================================== *)
(** ** Property access on parsed values (strict mode) *)

Module Access.

(** [o[k]], for the names this program reads (['scripts'], ['test']):
    neither array indices nor members of a built-in prototype. *)
Definition get (o : option value) (k : jsstring) : outcome (option value) :=
  match o with
  | None => Throw (TypeError (js "Cannot read properties of undefined"))
  | Some VNull => Throw (TypeError (js "Cannot read properties of null"))
  | Some (VBool _) | Some (VNum _) | Some (VStr _) => Ok None
  | Some (VArr _ named) => Ok (lookup k named)
  | Some (VObj props) => Ok (lookup k props)
  end.

(** [o[k] = v]: a primitive takes no property in strict mode. *)
Definition set (o : option value) (k : jsstring) (v : value) : outcome value :=
  match o with
  | None => Throw (TypeError (js "Cannot set properties of undefined"))
  | Some VNull => Throw (TypeError (js "Cannot set properties of null"))
  | Some (VBool _) | Some (VNum _) | Some (VStr _) =>
      Throw (TypeError (js "Cannot create property"))
  | Some (VArr elems named) => Ok (VArr elems (assign k v named))
  | Some (VObj props) => Ok (VObj (assign k v props))
  end.

(** [delete o[k]] *)
Definition delete (o : option value) (k : jsstring) : outcome value :=
  match o with
  | None => Throw (TypeError (js "Cannot convert undefined or null to object"))
  | Some VNull => Throw (TypeError (js "Cannot convert undefined or null to object"))
  | Some (VArr elems named) => Ok (VArr elems (remove k named))
  | Some (VObj props) => Ok (VObj (remove k props))
  | Some v => Ok v
  end.

(** The object [o] holds under [k] was mutated in place and is now [v]:
    [JSON.parse] returns a tree, so [o[k]] is its only reference. *)
Definition mutated (o : value) (k : jsstring) (v : value) : value :=
  match o with
  | VArr elems named => VArr elems (assign k v named)
  | VObj props => VObj (assign k v props)
  | _ => o
  end.

(** [Array.prototype.includes] with a string argument. *)
Definition array_includes (elems : list value) (x : jsstring) : bool :=
  existsb (fun e => match e with VStr s => str_eqb s x | _ => false end) elems.

(** Truthiness of [t?.includes(x)]: [undefined] and [null] short-circuit,
    strings and arrays have the method, anything else has none to call. *)
Definition optional_includes (t : option value) (x : jsstring) : outcome bool :=
  match t with
  | None | Some VNull => Ok false
  | Some (VStr s) => Ok (includes s x)
  | Some (VArr elems named) =>
      match lookup (js "includes") named with
      | None => Ok (array_includes elems x)
      | Some _ => Throw (TypeError (js "includes is not a function"))
      end
  | Some (VBool _) | Some (VNum _) | Some (VObj _) =>
      Throw (TypeError (js "includes is not a function"))
  end.

End Access.

(* ================================================================== *)
(** ** Types of [index.ts] *)

Inductive Language : Type := JavaScript | TypeScript.

Record PromptOptions : Type := {
  testDir : jsstring;
  installGitHubActions : bool;
  language : Language
}.

Inductive PackageManager : Type := npm | yarn.

(** [Command] of [./utils]. *)
Record Command : Type := {
  name : jsstring;
  command : jsstring
}.

(** [Map<string, string>]: the entries in insertion order. *)
Definition Files : Type := list (jsstring * jsstring).

(** One question handed to enquirer's [prompt]. *)
Record Question : Type := {
  q_type : jsstring;
  q_name : jsstring;
  q_message : jsstring;
  q_choices : list jsstring;
  q_initial : option value
}.

(** What leaves the process, in the order it happens. *)
Inductive Event : Type :=
| ConsoleLog (text : jsstring)
| ConsoleError (e : Error)
| Prompted (questions : list Question)
| Executed (cwd : jsstring) (c : Command)
| CreatedFiles (rootDir : jsstring) (files : Files) (force : option bool).

Record World (FS : Type) : Type := {
  fs : FS;
  TEST_OPTIONS : option jsstring;
  trace : list Event
}.

(** A computation: it returns or throws, and leaves a world behind. *)
Definition M (FS A : Type) : Type := World FS -> outcome A * World FS.

Definition ret {FS A : Type} (a : A) : M FS A := fun w => (Ok a, w).

Definition throw {FS A : Type} (e : Error) : M FS A := fun w => (Throw e, w).

Definition bind {FS A B : Type} (m : M FS A) (k : A -> M FS B) : M FS B :=
  fun w =>
    match m w with
    | (Ok a, w') => k a w'
    | (Throw e, w') => (Throw e, w')
    end.

Notation "x <- m ;; k" := (bind m (fun x => k))
  (at level 61, m at next level, right associativity).
Notation "m ;;; k" := (bind m (fun _ => k))
  (at level 61, right associativity).

Definition lift {FS A : Type} (o : outcome A) : M FS A := fun w => (o, w).

(** An event is appended to the trace. *)
Definition emit {FS : Type} (e : Event) : M FS unit :=
  fun w => (Ok tt, {| fs := fs w; TEST_OPTIONS := TEST_OPTIONS w; trace := trace w ++ [e] |}).

(** A read of the file system. *)
Definition reads {FS A : Type} (f : FS -> A) : M FS A :=
  fun w => (Ok (f (fs w)), w).

(** An operation on the file system alone. *)
Definition on_fs {FS A : Type} (f : FS -> outcome A * FS) : M FS A :=
  fun w =>
    let '(r, fs') := f (fs w) in
    (r, {| fs := fs'; TEST_OPTIONS := TEST_OPTIONS w; trace := trace w |}).

Definition getenv_TEST_OPTIONS {FS : Type} : M FS (option jsstring) :=
  fun w => (Ok (TEST_OPTIONS w), w).

(** What the program receives from Node and from the packages it imports. *)
Record Node (FS : Type) : Type := {
  existsSync : jsstring -> FS -> bool;
  (** [fs.readFileSync(path, 'utf-8')] *)
  readFileSync : jsstring -> FS -> outcome jsstring;
  mkdirSync : jsstring -> FS -> outcome unit * FS;
  JSON_parse : jsstring -> outcome value;
  (** [JSON.parse] of the options, at the type [PromptOptions] its caller
      declares for them. *)
  JSON_parse_options : jsstring -> outcome PromptOptions;
  (** The text [JSON.stringify(_, null, 2)] gives for what it prints. *)
  JSON_text : value -> jsstring;
  (** enquirer's [prompt]: what the user answers. *)
  prompt : list Question -> outcome PromptOptions;
  colors_yellow : jsstring -> jsstring;
  colors_bold : jsstring -> jsstring;
  colors_green : jsstring -> jsstring;
  colors_cyan : jsstring -> jsstring;
  path_relative : jsstring -> jsstring -> jsstring;
  process_cwd : jsstring;
  __dirname : jsstring
}.

(** The module [./utils], whose source is not at hand. *)
Record Utils (FS : Type) : Type := {
  languagetoFileExtension : Language -> jsstring;
  executeTemplate : jsstring -> list (jsstring * jsstring) -> jsstring;
  determinePackageManager : jsstring -> FS -> outcome PackageManager;
  determineRootDir : FS -> outcome jsstring;
  (** What one shell command does to the file system. *)
  run_shell : jsstring -> jsstring -> FS -> outcome unit * FS;
  (** What writing a set of files does to the file system. *)
  write_files : jsstring -> Files -> option bool -> FS -> outcome unit * FS
}.

(* ================================================================== *)
(** ** [index.ts] *)

Definition LF : jsstring := [10%N].

Definition PACKAGE_JSON_TEST_SCRIPT_CMD : jsstring := js "test:e2e".

(** [commandToRunTests] *)
Definition commandToRunTests (packageManager : PackageManager) : jsstring :=
  match packageManager with
  | yarn => js "yarn " ++ PACKAGE_JSON_TEST_SCRIPT_CMD
  | npm => js "npm run " ++ PACKAGE_JSON_TEST_SCRIPT_CMD
  end.

Definition is_yarn (packageManager : PackageManager) : bool :=
  match packageManager with yarn => true | npm => false end.

Definition is_npm (packageManager : PackageManager) : bool :=
  match packageManager with npm => true | yarn => false end.

(** [new Map().set(k, v)]: an existing key keeps its place. *)
Definition Map_set (files : Files) (k v : jsstring) : Files := assign k v files.

Definition Map_has (files : Files) (k : jsstring) : bool :=
  match lookup k files with Some _ => true | None => false end.

(** The questions of [_askQuestions]. *)
Definition questions : list Question :=
  [ {| q_type := js "select";
       q_name := js "language";
       q_message := js "Do you want to use TypeScript or JavaScript?";
       q_choices := [js "TypeScript"; js "JavaScript"];
       q_initial := None |};
    {| q_type := js "text";
       q_name := js "testDir";
       q_message := js "Where to put your end-to-end tests?";
       q_choices := [];
       q_initial := Some (VStr (js "e2e")) |};
    {| q_type := js "confirm";
       q_name := js "installGitHubActions";
       q_message := js "Add a GitHub Actions workflow?";
       q_choices := [];
       q_initial := Some (VBool true) |} ].

(** Lines 141 to 145 of [_patchPackageJSON], on the parsed object. *)
Definition patchScripts (packageJSON : value) : outcome value :=
  scripts <-- Access.get (Some packageJSON) (js "scripts") ;;
  packageJSON <--
    (if negb (truthy scripts)
     then Access.set (Some packageJSON) (js "scripts") (VObj [])
     else Ok packageJSON) ;;
  scripts <-- Access.get (Some packageJSON) (js "scripts") ;;
  test <-- Access.get scripts (js "test") ;;
  no_test <-- Access.optional_includes test (js "no test specified") ;;
  packageJSON <--
    (if no_test
     then
       scripts' <-- Access.delete scripts (js "test") ;;
       Ok (Access.mutated packageJSON (js "scripts") scripts')
     else Ok packageJSON) ;;
  scripts <-- Access.get (Some packageJSON) (js "scripts") ;;
  scripts' <-- Access.set scripts PACKAGE_JSON_TEST_SCRIPT_CMD (VStr (js "playwright test")) ;;
  Ok (Access.mutated packageJSON (js "scripts") scripts').

Record Generator : Type := {
  rootDir : jsstring;
  packageManager : PackageManager
}.

Section Program.

Context {FS : Type} (node : Node FS) (utils : Utils FS).

Definition console_log (text : jsstring) : M FS unit := emit (ConsoleLog text).

Definition console_error (e : Error) : M FS unit := emit (ConsoleError e).

(** Modelled from the spec: [executeCommands] of [./utils] is not among the
    sources. The spec has the commands run in listed order, one after
    another, and the first error end the run; what a command does to the
    file system is [run_shell]. *)
Fixpoint executeCommands (cwd : jsstring) (commands : list Command) : M FS unit :=
  match commands with
  | [] => ret tt
  | c :: rest =>
      emit (Executed cwd c) ;;;
      on_fs (run_shell utils cwd (command c)) ;;;
      executeCommands cwd rest
  end.

(** Modelled from the spec: [createFiles] of [./utils] is not among the
    sources. The spec says that it writes the files it is given; the call is
    recorded and what it does to the file system is [write_files]. *)
Definition createFiles (rootDir : jsstring) (files : Files) (force : option bool)
  : M FS unit :=
  emit (CreatedFiles rootDir files force) ;;;
  on_fs (write_files utils rootDir files force).

(** The constructor of [Generator]. *)
Definition new_Generator (rootDir : jsstring) : M FS Generator :=
  there <- reads (existsSync node rootDir) ;;
  (if negb there then on_fs (mkdirSync node rootDir) else ret tt) ;;;
  pm <- (fun w => (determinePackageManager utils rootDir (fs w), w)) ;;
  ret {| rootDir := rootDir; packageManager := pm |}.

Definition _printIntro (this : Generator) : M FS unit :=
  console_log
    (colors_yellow node
       (js "Getting started with writing " ++ colors_bold node (js "end-to-end")
        ++ js " tests with " ++ colors_bold node (js "Playwright") ++ js ":")) ;;;
  let rel := path_relative node (process_cwd node) (rootDir this) in
  console_log
    (js "Initializing project in '"
     ++ (if str_eqb rel [] then js "." else rel) ++ js "'").

Definition _askQuestions : M FS PromptOptions :=
  env <- getenv_TEST_OPTIONS ;;
  if truthy (option_map VStr env)
  then lift (JSON_parse_options node (match env with Some s => s | None => [] end))
  else
    emit (Prompted questions) ;;;
    lift (prompt node questions).

Definition _readAsset (asset : jsstring) : M FS jsstring :=
  let assetsDir := Path.join [__dirname node; js ".."; js "assets"] in
  fun w => (readFileSync node (Path.join [assetsDir; asset]) (fs w), w).

Definition _buildGitIgnore (this : Generator) : M FS jsstring :=
  let gitIgnore : jsstring := [] in
  there <- reads (existsSync node (Path.join [rootDir this; js ".gitignore"])) ;;
  gitIgnore <-
    (if there
     then
       text <- (fun w => (readFileSync node (Path.join [rootDir this; js ".gitignore"]) (fs w), w)) ;;
       ret (trimEnd text ++ LF)
     else ret gitIgnore) ;;
  let gitIgnore :=
    if negb (includes gitIgnore (js "node_modules"))
    then gitIgnore ++ js "node_modules/" ++ LF
    else gitIgnore in
  let gitIgnore := gitIgnore ++ js "test-results/" ++ LF in
  ret gitIgnore.

Definition _identifyChanges (this : Generator) (answers : PromptOptions)
  : M FS (Files * list Command) :=
  let commands : list Command := [] in
  let files : Files := [] in
  let fileExtension := languagetoFileExtension utils (language answers) in
  config <- _readAsset (js "playwright.config." ++ fileExtension) ;;
  let files :=
    Map_set files (js "playwright.config." ++ fileExtension)
      (executeTemplate utils config [(js "testDir", testDir answers)]) in
  files <-
    (if installGitHubActions answers
     then
       workflow <- _readAsset (js "github-actions.yml") ;;
       let githubActionsScript :=
         executeTemplate utils workflow
           [(js "installDepsCommand",
             if is_npm (packageManager this) then js "npm ci" else js "yarn");
            (js "runTestsCommand", commandToRunTests (packageManager this))] in
       ret (Map_set files (js ".github/workflows/playwright.yml") githubActionsScript)
     else ret files) ;;
  example <- _readAsset (js "example.spec." ++ fileExtension) ;;
  let files :=
    Map_set files (Path.join [testDir answers; js "example.spec." ++ fileExtension])
      example in
  hasPackageJSON <- reads (existsSync node (Path.join [rootDir this; js "package.json"])) ;;
  let commands :=
    if negb hasPackageJSON
    then commands ++
         [{| name := js "Initializing "
                     ++ (if is_yarn (packageManager this) then js "Yarn" else js "NPM")
                     ++ js " project";
             command := if is_yarn (packageManager this)
                        then js "yarn init -y" else js "npm init -y" |}]
    else commands in
  let commands :=
    commands ++
    [{| name := js "Installing Playwright Test";
        command := if is_yarn (packageManager this)
                   then js "yarn add --dev @playwright/test"
                   else js "npm install --save-dev @playwright/test" |}] in
  let commands :=
    commands ++
    [{| name := js "Downloading browsers";
        command := js "npx playwright install --with-deps" |}] in
  gitIgnore <- _buildGitIgnore this ;;
  let files := Map_set files (js ".gitignore") gitIgnore in
  ret (files, commands).

Definition _patchPackageJSON (this : Generator) : M FS unit :=
  text <- (fun w => (readFileSync node (Path.join [rootDir this; js "package.json"]) (fs w), w)) ;;
  packageJSON <- lift (JSON_parse node text) ;;
  packageJSON <- lift (patchScripts packageJSON) ;;
  let files : Files := [] in
  let files := Map_set files (js "package.json") (JSON_text node (printed packageJSON) ++ LF) in
  createFiles (rootDir this) files (Some true).

Definition _printOutro (this : Generator) (answers : PromptOptions) : M FS unit :=
  console_log
    (colors_green node ([10004%N] ++ js " Success!") ++ js " "
     ++ colors_bold node (js "Created a Playwright Test project at " ++ rootDir this)) ;;;
  let pathToNavigate := path_relative node (process_cwd node) (rootDir this) in
  let prefix :=
    if negb (str_eqb pathToNavigate [])
    then js "  cd " ++ pathToNavigate ++ LF
    else [] in
  let run_tests := commandToRunTests (packageManager this) in
  console_log
    (js "Inside that directory, you can run several commands:" ++ LF
     ++ LF
     ++ js "  " ++ colors_cyan node run_tests ++ LF
     ++ js "    Runs the end-to-end tests." ++ LF
     ++ LF
     ++ js "  " ++ colors_cyan node (run_tests ++ js " -- --project=Desktop Chrome") ++ LF
     ++ js "    Runs the tests only on Desktop Chrome." ++ LF
     ++ LF
     ++ js "  "
     ++ colors_cyan node
          (run_tests ++ js " -- " ++ testDir answers ++ js "/" ++ js "example.spec."
           ++ languagetoFileExtension utils (language answers)) ++ LF
     ++ js "    Runs the tests of a specific file." ++ LF
     ++ js "  " ++ LF
     ++ js "  "
     ++ colors_cyan node
          ((if is_npm (packageManager this) then js "npx" else js "yarn")
           ++ js " playwright debug " ++ run_tests) ++ LF
     ++ js "    Runs the tests in debug mode." ++ LF
     ++ LF
     ++ js "We suggest that you begin by typing:" ++ LF
     ++ LF
     ++ colors_cyan node (prefix ++ js "  " ++ run_tests) ++ LF
     ++ LF
     ++ js "Visit https://playwright.dev/docs/intro for more information. " ++ [10024%N] ++ LF
     ++ LF
     ++ js "Happy hacking! " ++ [55356%N; 57261%N]).

(** [Generator.run] *)
Definition run (this : Generator) : M FS unit :=
  _printIntro this ;;;
  answers <- _askQuestions ;;
  plan <- _identifyChanges this answers ;;
  let '(files, commands) := plan in
  executeCommands (rootDir this) commands ;;;
  createFiles (rootDir this) files None ;;;
  _patchPackageJSON this ;;;
  _printOutro this answers.

(** The body of the top-level [async] function. *)
Definition generate : M FS unit :=
  rootDir <- (fun w => (determineRootDir utils (fs w), w)) ;;
  generator <- new_Generator rootDir ;;
  run generator.

(** The entry point: the body, with its [catch] handler; the result is the
    exit code of the process and the world it leaves. *)
Definition main (w : World FS) : Z * World FS :=
  match generate w with
  | (Ok _, w') => (0%Z, w')
  | (Throw error, w') => (1%Z, snd (console_error error w'))
  end.

End Program.

(* ================================================================== *)
(** ** Notions the properties are stated with *)

(** The phase of [run] an event belongs to. [run] creates the planned
    files without a [force] argument and [_patchPackageJSON] writes
    [package.json] with one. *)
Inductive Phase : Type :=
| Printing
| Prompting
| RunningCommands
| WritingFiles
| PatchingPackageJSON.

Definition phase_of (e : Event) : Phase :=
  match e with
  | ConsoleLog _ | ConsoleError _ => Printing
  | Prompted _ => Prompting
  | Executed _ _ => RunningCommands
  | CreatedFiles _ _ None => WritingFiles
  | CreatedFiles _ _ (Some _) => PatchingPackageJSON
  end.

Definition phase_eqb (p q : Phase) : bool :=
  match p, q with
  | Printing, Printing
  | Prompting, Prompting
  | RunningCommands, RunningCommands
  | WritingFiles, WritingFiles
  | PatchingPackageJSON, PatchingPackageJSON => true
  | _, _ => false
  end.

(** A run of equal neighbours counts once. *)
Fixpoint squeeze (l : list Phase) : list Phase :=
  match l with
  | [] => []
  | p :: l' =>
      match squeeze l' with
      | q :: r => if phase_eqb p q then q :: r else p :: q :: r
      | [] => [p]
      end
  end.

(** The phases a sequence of events goes through, in order. *)
Definition phases (events : list Event) : list Phase :=
  squeeze (map phase_of events).

Fixpoint first_index (p : Phase) (l : list Phase) : option nat :=
  match l with
  | [] => None
  | q :: l' => if phase_eqb p q then Some 0 else option_map S (first_index p l')
  end.

(** Both phases occur, and [p] starts before [q] does. *)
Definition starts_before (p q : Phase) (l : list Phase) : bool :=
  match first_index p l, first_index q l with
  | Some i, Some j => Nat.ltb i j
  | _, _ => false
  end.

(** The events a computation adds to the trace. *)
Definition new_events {FS A : Type} (m : M FS A) (w : World FS) : list Event :=
  skipn (List.length (trace w)) (trace (snd (m w))).

(** A world that differs from [w] by the events [evs] and, maybe, in the
    file system. *)
Definition after {FS : Type} (w : World FS) (evs : list Event) (w' : World FS) : Prop :=
  TEST_OPTIONS w' = TEST_OPTIONS w /\ trace w' = trace w ++ evs.

(** The named properties a value carries. *)
Definition props_of (v : value) : list (jsstring * value) :=
  match v with
  | VArr _ named => named
  | VObj props => props
  | _ => []
  end.

(** The same value with other named properties. *)
Definition with_props (v : value) (props : list (jsstring * value)) : value :=
  match v with
  | VArr elems _ => VArr elems props
  | VObj _ => VObj props
  | _ => v
  end.

(** Objects and arrays take properties. *)
Definition has_props (v : value) : bool :=
  match v with
  | VArr _ _ | VObj _ => true
  | _ => false
  end.

(** What [packageJSON.scripts] is once line 142 has run. *)
Definition scripts_to_patch (packageJSON : value) : value :=
  match lookup (js "scripts") (props_of packageJSON) with
  | Some s => if truthy (Some s) then s else VObj []
  | None => VObj []
  end.

(** The members of a JSON document that is an object. *)
Definition members (doc : value) : list (jsstring * value) :=
  match doc with
  | VObj props => props
  | _ => []
  end.

(** The entries of the [scripts] object of a document. *)
Definition scripts_of (doc : value) : list (jsstring * value) :=
  match lookup (js "scripts") (members doc) with
  | Some (VObj props) => props
  | _ => []
  end.

Definition is_array (v : option value) : bool :=
  match v with
  | Some (VArr _ _) => true
  | _ => false
  end.

(** A [test] script that [includes('no test specified')]: a string with
    that text in it (or an array that holds it, to which [includes]
    applies as well). *)
Definition says_no_test_specified (test : option value) : bool :=
  match test with
  | Some (VStr s) => includes s (js "no test specified")
  | Some (VArr elems _) => Access.array_includes elems (js "no test specified")
  | _ => false
  end.

(** The text ends in a white space code unit. *)
Definition ends_in_whitespace (s : jsstring) : bool :=
  match rev s with
  | c :: _ => is_whitespace c
  | [] => false
  end.

(** The [.gitignore] the spec describes for an existing content. *)
Definition expected_gitignore (existing : option jsstring) : jsstring :=
  match existing with
  | None => js "node_modules/" ++ LF ++ js "test-results/" ++ LF
  | Some text =>
      trimEnd text ++ LF
      ++ (if includes text (js "node_modules") then [] else js "node_modules/" ++ LF)
      ++ js "test-results/" ++ LF
  end.

(** The three commands of a plan. *)
Definition init_command (pm : PackageManager) : Command :=
  {| name := js "Initializing " ++ (if is_yarn pm then js "Yarn" else js "NPM") ++ js " project";
     command := if is_yarn pm then js "yarn init -y" else js "npm init -y" |}.

Definition install_command (pm : PackageManager) : Command :=
  {| name := js "Installing Playwright Test";
     command := if is_yarn pm
                then js "yarn add --dev @playwright/test"
                else js "npm install --save-dev @playwright/test" |}.

Definition download_command : Command :=
  {| name := js "Downloading browsers";
     command := js "npx playwright install --with-deps" |}.

(** No code unit of [s] is [c]. *)
Definition free_of (c : N) (s : jsstring) : bool := negb (existsb (N.eqb c) s).

Definition has_no_slash (s : jsstring) : bool := free_of Path.SLASH s.

(** Where [_readAsset] finds an asset. *)
Definition asset_path {FS : Type} (node : Node FS) (asset : jsstring) : jsstring :=
  Path.join [Path.join [__dirname node; js ".."; js "assets"]; asset].

(** Two file systems that answer alike wherever the plan looks: the
    assets of the chosen language (and of the workflow when it is asked
    for), whether [package.json] and [.gitignore] exist, and what
    [.gitignore] holds when it does. *)
Definition same_inputs {FS : Type} (node : Node FS) (utils : Utils FS)
    (this : Generator) (answers : PromptOptions) (fs1 fs2 : FS) : Prop :=
  let ext := languagetoFileExtension utils (language answers) in
  let gitignore := Path.join [rootDir this; js ".gitignore"] in
  let package := Path.join [rootDir this; js "package.json"] in
  readFileSync node (asset_path node (js "playwright.config." ++ ext)) fs1
  = readFileSync node (asset_path node (js "playwright.config." ++ ext)) fs2
  /\ (installGitHubActions answers = true ->
      readFileSync node (asset_path node (js "github-actions.yml")) fs1
      = readFileSync node (asset_path node (js "github-actions.yml")) fs2)
  /\ readFileSync node (asset_path node (js "example.spec." ++ ext)) fs1
     = readFileSync node (asset_path node (js "example.spec." ++ ext)) fs2
  /\ existsSync node package fs1 = existsSync node package fs2
  /\ existsSync node gitignore fs1 = existsSync node gitignore fs2
  /\ (existsSync node gitignore fs1 = true ->
      readFileSync node gitignore fs1 = readFileSync node gitignore fs2).

(** A segment [normalizeString] keeps: not empty, and free of slashes. *)
Definition kept (s : jsstring) : Prop := s <> [] /\ has_no_slash s = true.

(** The documents lines 141 to 145 go through on: properties can be set
    on the document and on what it holds under [scripts] (once line 142
    has run), and [includes] can be called on the [test] script, if there
    is one. *)
Definition patch_accepts (packageJSON : value) : bool :=
  has_props packageJSON
  && has_props (scripts_to_patch packageJSON)
  && match lookup (js "test") (props_of (scripts_to_patch packageJSON)) with
     | None | Some VNull | Some (VStr _) => true
     | Some (VArr _ named) =>
         match lookup (js "includes") named with
         | None => true
         | Some _ => false
         end
     | Some _ => false
     end.

Definition is_TypeError (e : Error) : bool :=
  match e with
  | TypeError _ => true
  | _ => false
  end.

(** The names of the properties, in property order. *)
Definition keys {A : Type} (l : list (jsstring * A)) : list jsstring := map fst l.

(** Whether [_askQuestions] prompts in a world. *)
Definition prompts {FS : Type} (w : World FS) : bool :=
  negb (truthy (option_map VStr (TEST_OPTIONS w))).

(** The phases of a run that comes to its end. *)
Definition full_order (prompting : bool) : list Phase :=
  [Printing]
  ++ (if prompting then [Prompting] else [])
  ++ [RunningCommands; WritingFiles; PatchingPackageJSON; Printing].

(** What the plan needs to read can be read: the assets of the chosen
    language, the asset of the workflow when it is asked for, and
    [.gitignore] when there is one. *)
Definition plan_inputs_readable {FS : Type} (node : Node FS) (utils : Utils FS)
    (this : Generator) (answers : PromptOptions) (files : FS) : Prop :=
  let ext := languagetoFileExtension utils (language answers) in
  let gitignore := Path.join [rootDir this; js ".gitignore"] in
  (exists config,
     readFileSync node (asset_path node (js "playwright.config." ++ ext)) files = Ok config)
  /\ (installGitHubActions answers = true ->
      exists workflow,
        readFileSync node (asset_path node (js "github-actions.yml")) files = Ok workflow)
  /\ (exists example,
        readFileSync node (asset_path node (js "example.spec." ++ ext)) files = Ok example)
  /\ (existsSync node gitignore files = true ->
      exists text, readFileSync node gitignore files = Ok text).

(** The steps of [run] that can throw, each with the world it starts in. *)
Section Throwing.

Context {FS : Type} (node : Node FS) (utils : Utils FS).

Inductive run_throws (this : Generator) (w : World FS) (e : Error) (w' : World FS)
  : Prop :=
| in_askQuestions (w1 : World FS) :
    _printIntro node this w = (Ok tt, w1) ->
    _askQuestions node w1 = (Throw e, w') ->
    run_throws this w e w'
| in_identifyChanges (w1 w2 : World FS) (answers : PromptOptions) :
    _printIntro node this w = (Ok tt, w1) ->
    _askQuestions node w1 = (Ok answers, w2) ->
    _identifyChanges node utils this answers w2 = (Throw e, w') ->
    run_throws this w e w'
| in_executeCommands (w1 w2 w3 : World FS) (answers : PromptOptions)
    (files : Files) (commands : list Command) :
    _printIntro node this w = (Ok tt, w1) ->
    _askQuestions node w1 = (Ok answers, w2) ->
    _identifyChanges node utils this answers w2 = (Ok (files, commands), w3) ->
    executeCommands utils (rootDir this) commands w3 = (Throw e, w') ->
    run_throws this w e w'
| in_createFiles (w1 w2 w3 w4 : World FS) (answers : PromptOptions)
    (files : Files) (commands : list Command) :
    _printIntro node this w = (Ok tt, w1) ->
    _askQuestions node w1 = (Ok answers, w2) ->
    _identifyChanges node utils this answers w2 = (Ok (files, commands), w3) ->
    executeCommands utils (rootDir this) commands w3 = (Ok tt, w4) ->
    createFiles utils (rootDir this) files None w4 = (Throw e, w') ->
    run_throws this w e w'
| in_patchPackageJSON (w1 w2 w3 w4 w5 : World FS) (answers : PromptOptions)
    (files : Files) (commands : list Command) :
    _printIntro node this w = (Ok tt, w1) ->
    _askQuestions node w1 = (Ok answers, w2) ->
    _identifyChanges node utils this answers w2 = (Ok (files, commands), w3) ->
    executeCommands utils (rootDir this) commands w3 = (Ok tt, w4) ->
    createFiles utils (rootDir this) files None w4 = (Ok tt, w5) ->
    _patchPackageJSON node utils this w5 = (Throw e, w') ->
    run_throws this w e w'.

(** The steps of the entry point that can throw. *)
Inductive generate_throws (w : World FS) (e : Error) (w' : World FS) : Prop :=
| in_determineRootDir :
    determineRootDir utils (fs w) = Throw e -> w' = w ->
    generate_throws w e w'
| in_constructor (root : jsstring) :
    determineRootDir utils (fs w) = Ok root ->
    new_Generator node utils root w = (Throw e, w') ->
    generate_throws w e w'
| in_run (root : jsstring) (this : Generator) (w1 : World FS) :
    determineRootDir utils (fs w) = Ok root ->
    new_Generator node utils root w = (Ok this, w1) ->
    run_throws this w1 e w' ->
    generate_throws w e w'.

End Throwing.

(* ================================================================== *)
(** ** A small installation to run the generator on *)

Module Demo.

(** A file system of regular files: path and content. *)
Definition FS : Type := list (jsstring * jsstring).

Definition read (path : jsstring) (files : FS) : outcome jsstring :=
  match lookup path files with
  | Some text => Ok text
  | None => Throw (SystemError (js "ENOENT") path)
  end.

Definition TS_answers : PromptOptions :=
  {| testDir := js "e2e"; installGitHubActions := true; language := TypeScript |}.

Definition JS_answers : PromptOptions :=
  {| testDir := js "tests"; installGitHubActions := false; language := JavaScript |}.

Definition absolute_answers : PromptOptions :=
  {| testDir := js "/tmp/e2e"; installGitHubActions := false; language := TypeScript |}.

(** What [npm init] leaves, more or less. *)
Definition app_members : list (jsstring * value) :=
  [(js "name", VStr (js "app"));
   (js "scripts",
    VObj [(js "test", VStr (js "echo Error: no test specified"));
          (js "build", VStr (js "tsc"))])].

Definition app_package : value := VObj app_members.

Definition app_text : jsstring :=
  js "{'name':'app','scripts':{'test':'echo Error: no test specified','build':'tsc'}}".

(** The documents the stand-in for [JSON.parse] knows. *)
Definition parse (text : jsstring) : outcome value :=
  if str_eqb text (js "{}") then Ok (VObj [])
  else if str_eqb text (js "[]") then Ok (VArr [] [])
  else if str_eqb text (js "{'scripts':[]}") then Ok (VObj [(js "scripts", VArr [] [])])
  else if str_eqb text app_text
  then Ok app_package
  else Throw (SyntaxError (js "Unexpected token")).

Definition parse_options (text : jsstring) : outcome PromptOptions :=
  if str_eqb text (js "{'language':'JavaScript','testDir':'tests','installGitHubActions':false}")
  then Ok JS_answers
  else Throw (SyntaxError (js "Unexpected token")).

(** A one-line rendering, enough to tell documents apart. *)
Fixpoint text_of (v : value) : jsstring :=
  match v with
  | VNull => js "null"
  | VBool true => js "true"
  | VBool false => js "false"
  | VNum _ => js "0"
  | VStr s => js "'" ++ s ++ js "'"
  | VArr elems _ => js "[" ++ List.concat (map (fun e => text_of e ++ js ",") elems) ++ js "]"
  | VObj props =>
      js "{"
      ++ List.concat (map (fun kv => let '(k, x) := kv in js "'" ++ k ++ js "':" ++ text_of x ++ js ",") props)
      ++ js "}"
  end.

Definition node : Node FS :=
  {| existsSync := fun path files => Map_has files path;
     readFileSync := read;
     mkdirSync := fun _ files => (Ok tt, files);
     JSON_parse := parse;
     JSON_parse_options := parse_options;
     JSON_text := text_of;
     prompt := fun _ => Ok TS_answers;
     colors_yellow := fun s => s;
     colors_bold := fun s => s;
     colors_green := fun s => s;
     colors_cyan := fun s => s;
     path_relative := fun _ to => to;
     process_cwd := js "/home";
     __dirname := js "/pkg/lib" |}.

Definition utils : Utils FS :=
  {| languagetoFileExtension :=
       fun l => match l with JavaScript => js "js" | TypeScript => js "ts" end;
     executeTemplate := fun template _ => template;
     determinePackageManager := fun _ _ => Ok npm;
     determineRootDir := fun _ => Ok (js "proj");
     run_shell :=
       fun cwd command files =>
         if str_eqb command (js "npm init -y")
         then (Ok tt, Map_set files (Path.join [cwd; js "package.json"]) (js "{}"))
         else (Ok tt, files);
     write_files :=
       fun rootDir created _ files =>
         (Ok tt,
          fold_left (fun acc kv => Map_set acc (Path.join [rootDir; fst kv]) (snd kv))
            created files) |}.

Definition assets : FS :=
  [ (js "/pkg/assets/playwright.config.ts", js "config ts");
    (js "/pkg/assets/playwright.config.js", js "config js");
    (js "/pkg/assets/example.spec.ts", js "example ts");
    (js "/pkg/assets/example.spec.js", js "example js");
    (js "/pkg/assets/github-actions.yml", js "workflow") ].

Definition generator : Generator :=
  {| rootDir := js "proj"; packageManager := npm |}.

(** A fresh directory, nothing in the environment. *)
Definition fresh : World FS :=
  {| fs := assets; TEST_OPTIONS := None; trace := [] |}.

(** The plan for the TypeScript answers in the fresh directory. *)
Definition TS_plan : Files * list Command :=
  match fst (_identifyChanges node utils generator TS_answers fresh) with
  | Ok plan => plan
  | Throw _ => ([], [])
  end.

(** [TEST_OPTIONS] is set, and empty. *)
Definition empty_options : World FS :=
  {| fs := assets; TEST_OPTIONS := Some []; trace := [] |}.

Definition with_options : World FS :=
  {| fs := assets;
     TEST_OPTIONS :=
       Some (js "{'language':'JavaScript','testDir':'tests','installGitHubActions':false}");
     trace := [] |}.

(** The project already holds the [.gitignore] of an earlier run. *)
Definition second_run : World FS :=
  {| fs := (js "proj/.gitignore", js "node_modules/" ++ LF ++ js "test-results/" ++ LF)
           :: (js "proj/package.json", app_text)
           :: assets;
     TEST_OPTIONS := None;
     trace := [ConsoleLog (js "earlier output")] |}.

(** The project has a [.gitignore] of its own, with [node_modules/] in it
    and blank lines at its end. *)
Definition own_gitignore : World FS :=
  {| fs := (js "proj/.gitignore", js "node_modules/" ++ LF ++ js "dist/" ++ LF ++ LF ++ LF)
           :: assets;
     TEST_OPTIONS := None;
     trace := [] |}.

(** The same project seen from elsewhere: other files, another trace. *)
Definition second_run' : World FS :=
  {| fs := (js "unrelated.txt", js "x") :: fs second_run;
     TEST_OPTIONS := Some (js "ignored");
     trace := [] |}.

(** The package of the project once patched. *)
Definition app_patched : value :=
  match patchScripts app_package with
  | Ok patched => patched
  | Throw _ => VNull
  end.

(** A project whose [package.json] has an array under [scripts]. *)
Definition scripts_array : World FS :=
  {| fs := (js "proj/package.json", js "{'scripts':[]}") :: assets;
     TEST_OPTIONS := None;
     trace := [] |}.

(** [package.json] is not JSON. *)
Definition broken_package : World FS :=
  {| fs := (js "proj/package.json", js "{") :: assets;
     TEST_OPTIONS := None;
     trace := [] |}.

End Demo.


(* ================================================================== *)
(** ** Strings *)

Unset Implicit Arguments.

Section StringFacts.

Lemma str_eqb_eq (a b : jsstring) : str_eqb a b = true <-> a = b.
Proof.
  revert b; induction a as [|x a IH]; intros [|y b]; simpl; split;
    try congruence; try reflexivity.
  - intros H. apply andb_true_iff in H as [Hx Hr].
    apply N.eqb_eq in Hx. apply IH in Hr. congruence.
  - intros H. injection H as -> ->.
    rewrite N.eqb_refl. simpl. now apply IH.
Qed.

Lemma str_eqb_refl (a : jsstring) : str_eqb a a = true.
Proof. now apply str_eqb_eq. Qed.

Lemma str_eqb_neq (a b : jsstring) : str_eqb a b = false <-> a <> b.
Proof.
  split.
  - intros H E. apply str_eqb_eq in E. congruence.
  - intros H. destruct (str_eqb a b) eqn:E; [|reflexivity].
    apply str_eqb_eq in E. contradiction.
Qed.

Lemma str_eqb_sym (a b : jsstring) : str_eqb a b = str_eqb b a.
Proof.
  destruct (str_eqb a b) eqn:E.
  - apply str_eqb_eq in E. subst. symmetry. apply str_eqb_refl.
  - symmetry. apply str_eqb_neq. apply str_eqb_neq in E. congruence.
Qed.

Lemma startsWith_app (p rest : jsstring) : startsWith (p ++ rest) p = true.
Proof.
  induction p as [|x p IH]; simpl; [reflexivity|].
  now rewrite N.eqb_refl.
Qed.

Lemma includes_startsWith (s p : jsstring) :
  startsWith s p = true -> includes s p = true.
Proof. intros H. destruct s; simpl; now rewrite H. Qed.

(** A text includes what stands in its middle. *)
Lemma includes_middle (before p after : jsstring) :
  includes (before ++ p ++ after) p = true.
Proof.
  induction before as [|x before IH].
  - simpl. apply includes_startsWith, startsWith_app.
  - simpl. rewrite IH. apply orb_true_r.
Qed.

(** A code unit foreign to [p], put at the end, starts no occurrence. *)
Lemma startsWith_snoc (p s : jsstring) (c : N) :
  ~ In c p -> startsWith (s ++ [c]) p = startsWith s p.
Proof.
  revert s; induction p as [|x p IH]; intros s Hc; [now destruct s|].
  destruct s as [|y s]; simpl.
  - destruct (N.eqb_spec x c) as [->|_]; [|reflexivity].
    exfalso. apply Hc. now left.
  - rewrite IH; [reflexivity|]. intros H. apply Hc. now right.
Qed.

Lemma includes_snoc (p s : jsstring) (c : N) :
  ~ In c p -> includes (s ++ [c]) p = includes s p.
Proof.
  intros Hc. induction s as [|y s IH].
  - pose proof (startsWith_snoc p [] c Hc) as E. simpl in E.
    simpl. rewrite E. now destruct (startsWith [] p).
  - change ((y :: s) ++ [c]) with (y :: (s ++ [c])).
    change (includes (y :: s ++ [c]) p)
      with (startsWith ((y :: s) ++ [c]) p || includes (s ++ [c]) p).
    rewrite (startsWith_snoc p (y :: s) c Hc), IH. reflexivity.
Qed.

(** Trailing white space hides no occurrence of a text without any. *)
Lemma includes_trailing_whitespace (p s ws : jsstring) :
  forallb is_whitespace ws = true ->
  existsb is_whitespace p = false ->
  includes (s ++ ws) p = includes s p.
Proof.
  intros Hws Hp. revert Hws.
  induction ws as [|c ws IH] using rev_ind; intros Hws.
  - now rewrite app_nil_r.
  - rewrite forallb_app in Hws. apply andb_true_iff in Hws as [Hws Hc].
    simpl in Hc. rewrite andb_true_r in Hc.
    rewrite app_assoc, includes_snoc; [now apply IH|].
    intros Hin.
    assert (existsb is_whitespace p = true) as E
      by (apply existsb_exists; now exists c).
    congruence.
Qed.

(** [trimEnd] cuts a run of white space off the end, and only that. *)
Lemma trimEnd_cons (c : N) (s : jsstring) :
  trimEnd (c :: s) =
  match trimEnd s with
  | [] => if is_whitespace c then [] else [c]
  | _ :: _ => c :: trimEnd s
  end.
Proof. reflexivity. Qed.

Lemma trimEnd_split (s : jsstring) :
  exists ws, s = trimEnd s ++ ws /\ forallb is_whitespace ws = true.
Proof.
  induction s as [|c s (ws & E & Hws)].
  - exists []. now split.
  - rewrite trimEnd_cons.
    destruct (trimEnd s) as [|d t] eqn:F.
    + simpl in E. subst ws.
      destruct (is_whitespace c) eqn:W.
      * exists (c :: s). simpl. now rewrite W, Hws.
      * exists s. now split.
    + exists ws. split; [|assumption]. simpl in *. congruence.
Qed.

(** The test [_buildGitIgnore] makes on the trimmed text with its line
    feed decides the same as on the text as it was read. *)
(** What [trimEnd] leaves does not end in white space. *)
Lemma trimEnd_ends (s : jsstring) : ends_in_whitespace (trimEnd s) = false.
Proof.
  induction s as [|c s IH]; [reflexivity|].
  rewrite trimEnd_cons. destruct (trimEnd s) as [|d t].
  - destruct (is_whitespace c) eqn:W; [reflexivity|].
    unfold ends_in_whitespace. simpl. exact W.
  - unfold ends_in_whitespace in IH |- *.
    change (rev (c :: d :: t)) with (rev (d :: t) ++ [c]).
    destruct (rev (d :: t)) as [|x r] eqn:R; [|exact IH].
    apply (f_equal (@List.length _)) in R. rewrite length_rev in R. discriminate R.
Qed.

Lemma includes_trimEnd (p s : jsstring) :
  existsb is_whitespace p = false ->
  includes (trimEnd s ++ LF) p = includes s p.
Proof.
  intros Hp.
  destruct (trimEnd_split s) as (ws & E & Hws).
  rewrite (includes_trailing_whitespace p (trimEnd s) LF eq_refl Hp).
  rewrite E at 2.
  now rewrite (includes_trailing_whitespace p (trimEnd s) ws Hws Hp).
Qed.

Lemma free_of_cons (sep c : N) (s : jsstring) :
  free_of sep (c :: s) = negb (N.eqb sep c) && free_of sep s.
Proof. unfold free_of. simpl. now rewrite negb_orb. Qed.

Lemma free_of_app (sep : N) (a b : jsstring) :
  free_of sep (a ++ b) = free_of sep a && free_of sep b.
Proof. unfold free_of. now rewrite existsb_app, negb_orb. Qed.

Lemma split_on_cons (sep : N) (s : jsstring) :
  exists piece pieces, split_on sep s = piece :: pieces.
Proof.
  destruct s as [|c s]; simpl; [now eexists; eexists|].
  destruct (N.eqb c sep); [now eexists; eexists|].
  destruct (split_on sep s); now eexists; eexists.
Qed.

Lemma split_on_free (sep : N) (s : jsstring) :
  Forall (fun piece => free_of sep piece = true) (split_on sep s).
Proof.
  induction s as [|c s IH]; simpl.
  - now constructor.
  - destruct (N.eqb c sep) eqn:E.
    + now constructor.
    + destruct (split_on sep s) as [|piece pieces]; inversion IH; subst;
        constructor; try assumption; try constructor;
        rewrite free_of_cons, N.eqb_sym, E; simpl; auto.
Qed.

(** A text without the separator is one piece. *)
Lemma split_on_piece (sep : N) (s : jsstring) :
  free_of sep s = true -> split_on sep s = [s].
Proof.
  induction s as [|c s IH]; [reflexivity|].
  rewrite free_of_cons. intros H. apply andb_true_iff in H as [Hc Hs].
  simpl. rewrite N.eqb_sym. apply negb_true_iff in Hc. rewrite Hc.
  now rewrite (IH Hs).
Qed.

Lemma split_on_app (sep : N) (a b : jsstring) :
  split_on sep (a ++ sep :: b) = split_on sep a ++ split_on sep b.
Proof.
  induction a as [|c a IH]; simpl.
  - now rewrite N.eqb_refl.
  - destruct (N.eqb c sep); [now rewrite IH|].
    rewrite IH. destruct (split_on_cons sep a) as (piece & pieces & ->). reflexivity.
Qed.

(** Lines are counted piece by piece. *)
Lemma count_line_app (l a b : jsstring) :
  count_line l (a ++ LF ++ b) = count_line l a + count_line l b.
Proof.
  unfold count_line, lines, LF. simpl app.
  now rewrite split_on_app, filter_app, length_app.
Qed.

End StringFacts.

(* ================================================================== *)
(** ** Property lists *)

Section PropertyFacts.

Context {A : Type}.

Lemma lookup_assign_same (k : jsstring) (v : A) (l : list (jsstring * A)) :
  lookup k (assign k v l) = Some v.
Proof.
  induction l as [|[k' v'] l IH]; simpl.
  - now rewrite str_eqb_refl.
  - destruct (str_eqb k k') eqn:E; simpl.
    + now rewrite str_eqb_refl.
    + now rewrite E.
Qed.

Lemma lookup_assign_other (k k' : jsstring) (v : A) (l : list (jsstring * A)) :
  str_eqb k k' = false -> lookup k (assign k' v l) = lookup k l.
Proof.
  intros N. induction l as [|[k2 v2] l IH]; simpl.
  - now rewrite N.
  - destruct (str_eqb k' k2) eqn:E; simpl.
    + apply str_eqb_eq in E. subst k2. now rewrite N.
    + now rewrite IH.
Qed.

Lemma lookup_remove_same (k : jsstring) (l : list (jsstring * A)) :
  lookup k (remove k l) = None.
Proof.
  induction l as [|[k' v'] l IH]; simpl; [reflexivity|].
  destruct (str_eqb k k') eqn:E; simpl; [assumption|].
  now rewrite E.
Qed.

Lemma lookup_remove_other (k k' : jsstring) (l : list (jsstring * A)) :
  str_eqb k k' = false -> lookup k (remove k' l) = lookup k l.
Proof.
  intros N. induction l as [|[k2 v2] l IH]; simpl; [reflexivity|].
  destruct (str_eqb k' k2) eqn:E; simpl.
  - apply str_eqb_eq in E. subst k2. now rewrite N.
  - now rewrite IH.
Qed.

End PropertyFacts.

Lemma lookup_printed (k : jsstring) (l : list (jsstring * value)) :
  lookup k (map (fun kv => let '(k, x) := kv in (k, printed x)) l)
  = option_map printed (lookup k l).
Proof.
  induction l as [|[k' v'] l IH]; simpl; [reflexivity|].
  now destruct (str_eqb k k').
Qed.

Lemma Map_has_set (files : Files) (k k' v : jsstring) :
  Map_has (Map_set files k' v) k = str_eqb k k' || Map_has files k.
Proof.
  unfold Map_has, Map_set.
  destruct (str_eqb k k') eqn:E.
  - apply str_eqb_eq in E. subst. now rewrite lookup_assign_same.
  - now rewrite lookup_assign_other.
Qed.

Lemma Map_has_set_same (files : Files) (k v : jsstring) :
  Map_has (Map_set files k v) k = true.
Proof. now rewrite Map_has_set, str_eqb_refl. Qed.

Lemma Map_has_set_keep (files : Files) (k k' v : jsstring) :
  Map_has files k = true -> Map_has (Map_set files k' v) k = true.
Proof. intros H. now rewrite Map_has_set, H, orb_true_r. Qed.

(** The keys of a map after [set]: the new key, and those it had. *)
Lemma In_Map_set (files : Files) (k v : jsstring) (entry : jsstring * jsstring) :
  In entry (Map_set files k v) -> fst entry = k \/ In entry files.
Proof.
  unfold Map_set. induction files as [|[k' v'] files IH]; simpl.
  - intros [<-|[]]. now left.
  - destruct (str_eqb k k'); simpl.
    + intros [<-|H]; [now left | now right; right].
    + intros [<-|H]; [now right; left|].
      destruct (IH H) as [E|E]; [now left | now right; right].
Qed.

(* ================================================================== *)
(** ** Paths *)

Section PathFacts.

Import Path.

Lemma has_no_slash_cons (c : N) (s : jsstring) :
  has_no_slash (c :: s) = negb (N.eqb SLASH c) && has_no_slash s.
Proof. apply free_of_cons. Qed.

Lemma has_no_slash_app (a b : jsstring) :
  has_no_slash (a ++ b) = has_no_slash a && has_no_slash b.
Proof. apply free_of_app. Qed.

Lemma segments_no_slash (p : jsstring) :
  Forall (fun s => has_no_slash s = true) (segments p).
Proof. apply split_on_free. Qed.

Lemma segments_name (f : jsstring) :
  has_no_slash f = true -> segments f = [f].
Proof. apply split_on_piece. Qed.

Lemma segments_app (a b : jsstring) :
  segments (a ++ SLASH :: b) = segments a ++ segments b.
Proof. apply split_on_app. Qed.

Lemma normalize_step_kept (above : bool) (stack : list jsstring) (seg : jsstring) :
  Forall kept stack -> has_no_slash seg = true ->
  Forall kept (normalize_step above stack seg).
Proof.
  intros Hs Hseg. unfold normalize_step.
  destruct (str_eqb seg []) eqn:E0; simpl; [assumption|].
  destruct (str_eqb seg (js ".")) eqn:E1; [assumption|].
  assert (kept (js "..")) as Kdots by (split; [discriminate | reflexivity]).
  destruct (str_eqb seg (js "..")) eqn:E2.
  - destruct stack as [|top rest].
    + destruct above; repeat constructor; apply Kdots.
    + destruct (str_eqb top (js "..")).
      * destruct above; [constructor|]; assumption.
      * now inversion Hs.
  - constructor; [|assumption]. split; [|assumption].
    now apply str_eqb_neq in E0.
Qed.

Lemma fold_normalize_step_kept (above : bool) (segs stack : list jsstring) :
  Forall kept stack -> Forall (fun s => has_no_slash s = true) segs ->
  Forall kept (fold_left (normalize_step above) segs stack).
Proof.
  revert stack; induction segs as [|s segs IH]; intros stack Hs Hsegs; simpl.
  - assumption.
  - inversion Hsegs; subst. apply IH; [|assumption].
    now apply normalize_step_kept.
Qed.

Lemma isAbsolute_app (a b : jsstring) :
  a <> [] -> isAbsolute (a ++ b) = isAbsolute a.
Proof. destruct a; [congruence | reflexivity]. Qed.

Lemma isAbsolute_kept (s : jsstring) : kept s -> isAbsolute s = false.
Proof.
  intros [Hne Hs]. destruct s as [|c s]; [reflexivity|].
  rewrite has_no_slash_cons in Hs. apply andb_true_iff in Hs as [Hc _].
  simpl. rewrite N.eqb_sym. now apply negb_true_iff.
Qed.

Lemma isAbsolute_join_with (l : list jsstring) :
  Forall kept l -> isAbsolute (join_with [SLASH] l) = false.
Proof.
  intros H. destruct l as [|s l]; [reflexivity|].
  inversion H as [|? ? Ks _]; subst.
  destruct l as [|s' l]; simpl.
  - now apply isAbsolute_kept.
  - change (s ++ SLASH :: s' ++ _) with (s ++ (SLASH :: join_with [SLASH] (s' :: l))).
    rewrite isAbsolute_app; [now apply isAbsolute_kept | apply Ks].
Qed.

Lemma isAbsolute_normalizeString (p : jsstring) (above : bool) :
  isAbsolute (normalizeString p above) = false.
Proof.
  unfold normalizeString. apply isAbsolute_join_with.
  apply Forall_rev, fold_normalize_step_kept; [constructor|].
  apply segments_no_slash.
Qed.

(** [normalize] makes no relative path absolute. *)
Lemma isAbsolute_normalize (p : jsstring) :
  isAbsolute p = false -> isAbsolute (normalize p) = false.
Proof.
  intros Hp. destruct p as [|c p]; [reflexivity|].
  unfold normalize. rewrite Hp. simpl negb.
  pose proof (isAbsolute_normalizeString (c :: p) true) as Hq.
  destruct (normalizeString (c :: p) true) as [|d q] eqn:E.
  - now destruct (trailingSeparator (c :: p)).
  - destruct (trailingSeparator (c :: p)); [|assumption].
    now rewrite isAbsolute_app.
Qed.

(** Joining relative pieces gives a relative path. *)
Lemma isAbsolute_join (a b : jsstring) :
  isAbsolute a = false -> isAbsolute b = false ->
  isAbsolute (join [a; b]) = false.
Proof.
  intros Ha Hb. unfold join.
  destruct a as [|x a]; destruct b as [|y b]; cbn -[normalize];
    try reflexivity; apply isAbsolute_normalize; assumption.
Qed.

Lemma join_with_snoc (sep : jsstring) (l : list jsstring) (f : jsstring) :
  exists pre, join_with sep (l ++ [f]) = pre ++ f.
Proof.
  induction l as [|s l (pre & IH)].
  - now exists [].
  - destruct l as [|s' l].
    + exists (s ++ sep). simpl. now rewrite <- app_assoc.
    + exists (s ++ sep ++ pre).
      change (join_with sep ((s :: s' :: l) ++ [f]))
        with (s ++ sep ++ join_with sep ((s' :: l) ++ [f])).
      rewrite IH. now rewrite <- !app_assoc.
Qed.

(** A proper file name is pushed as it is. *)
Lemma normalize_step_name (above : bool) (stack : list jsstring) (f : jsstring) :
  str_eqb f [] = false -> str_eqb f (js ".") = false ->
  str_eqb f (js "..") = false ->
  normalize_step above stack f = f :: stack.
Proof. intros E0 E1 E2. unfold normalize_step. now rewrite E0, E1, E2. Qed.

Lemma normalizeString_keeps_last (p f : jsstring) (segs : list jsstring) (above : bool) :
  segments p = segs ++ [f] ->
  str_eqb f [] = false -> str_eqb f (js ".") = false ->
  str_eqb f (js "..") = false ->
  exists pre, normalizeString p above = pre ++ f.
Proof.
  intros Hsegs E0 E1 E2. unfold normalizeString.
  rewrite Hsegs, fold_left_app. simpl fold_left.
  rewrite normalize_step_name by assumption. simpl rev.
  apply join_with_snoc.
Qed.

Lemma normalize_keeps_last (p f : jsstring) (segs : list jsstring) :
  p <> [] -> segments p = segs ++ [f] ->
  str_eqb f [] = false -> str_eqb f (js ".") = false ->
  str_eqb f (js "..") = false ->
  exists pre post, normalize p = pre ++ f ++ post.
Proof.
  intros Hp Hsegs E0 E1 E2.
  destruct p as [|c p]; [congruence|].
  unfold normalize. cbv zeta.
  destruct (normalizeString_keeps_last (c :: p) f segs (negb (isAbsolute (c :: p)))
              Hsegs E0 E1 E2) as (pre & ->).
  destruct (pre ++ f) as [|d q] eqn:E.
  - apply app_eq_nil in E as [_ ->]. discriminate.
  - rewrite <- E.
    destruct (isAbsolute (c :: p)); destruct (trailingSeparator (c :: p)).
    + exists (js "/" ++ pre), (js "/"). now rewrite <- !app_assoc.
    + exists (js "/" ++ pre), []. now rewrite app_nil_r, <- app_assoc.
    + exists pre, (js "/"). now rewrite <- app_assoc.
    + exists pre, []. now rewrite app_nil_r.
Qed.

(** The file name joined last is still there after normalisation. *)
Lemma join_keeps_name (dir f : jsstring) :
  has_no_slash f = true ->
  str_eqb f [] = false -> str_eqb f (js ".") = false ->
  str_eqb f (js "..") = false ->
  exists pre post, join [dir; f] = pre ++ f ++ post.
Proof.
  intros Hf E0 E1 E2. unfold join.
  destruct dir as [|c dir]; cbn -[normalize]; rewrite E0; cbn -[normalize].
  - apply (normalize_keeps_last f f []); try assumption.
    + now apply str_eqb_neq in E0.
    + now apply segments_name.
  - apply (normalize_keeps_last _ f (segments (c :: dir))); try assumption.
    + discriminate.
    + change (c :: dir ++ SLASH :: f) with ((c :: dir) ++ SLASH :: f).
      now rewrite segments_app, (segments_name f Hf).
Qed.

(** The example test never lands on the path of the workflow. *)
Lemma example_is_not_workflow (dir ext : jsstring) :
  has_no_slash ext = true ->
  str_eqb (js ".github/workflows/playwright.yml")
    (join [dir; js "example.spec." ++ ext]) = false.
Proof.
  intros Hext. apply str_eqb_neq. intros E.
  destruct (join_keeps_name dir (js "example.spec." ++ ext)) as (pre & post & J);
    try reflexivity.
  - now rewrite has_no_slash_app, Hext.
  - pose proof (eq_trans E J) as EJ.
    assert (includes (pre ++ (js "example.spec." ++ ext) ++ post) (js "example.spec.") = true) as I.
    { rewrite <- app_assoc. apply includes_middle. }
    rewrite <- EJ in I. vm_compute in I. discriminate.
Qed.

End PathFacts.

(* ================================================================== *)
(** ** The text of [.gitignore] *)

Section GitIgnoreFacts.

Lemma startsWith_inv (s p : jsstring) :
  startsWith s p = true -> exists rest, s = p ++ rest.
Proof.
  revert s; induction p as [|x p IH]; intros s H.
  - now exists s.
  - destruct s as [|y s]; [discriminate|]. simpl in H.
    apply andb_true_iff in H as [Hx Hr]. apply N.eqb_eq in Hx. subst y.
    destruct (IH s Hr) as (rest & ->). now exists rest.
Qed.

Lemma includes_inv (s p : jsstring) :
  includes s p = true -> exists before after, s = before ++ p ++ after.
Proof.
  induction s as [|y s IH]; simpl; intros H.
  - rewrite orb_false_r in H. destruct (startsWith_inv [] p H) as (rest & E).
    now exists [], rest.
  - apply orb_true_iff in H as [H|H].
    + destruct (startsWith_inv (y :: s) p H) as (rest & E). now exists [], rest.
    + destruct (IH H) as (before & after & ->). now exists (y :: before), after.
Qed.

Lemma includes_app_l (s rest p : jsstring) :
  includes s p = true -> includes (s ++ rest) p = true.
Proof.
  intros H. destruct (includes_inv s p H) as (before & after & ->).
  rewrite <- !app_assoc. apply includes_middle.
Qed.

Lemma trimEnd_whitespace (ws : jsstring) :
  forallb is_whitespace ws = true -> trimEnd ws = [].
Proof.
  induction ws as [|c ws IH]; [reflexivity|]. simpl forallb. intros H.
  apply andb_true_iff in H as [Hc Hws].
  now rewrite trimEnd_cons, (IH Hws), Hc.
Qed.

(** Up to the last code unit that is no white space, nothing is cut. *)
Lemma trimEnd_tail (a : jsstring) (c : N) (ws : jsstring) :
  is_whitespace c = false -> forallb is_whitespace ws = true ->
  trimEnd (a ++ c :: ws) = a ++ [c].
Proof.
  intros Hc Hws. induction a as [|x a IH].
  - simpl app. now rewrite trimEnd_cons, (trimEnd_whitespace ws Hws), Hc.
  - change ((x :: a) ++ c :: ws) with (x :: (a ++ c :: ws)).
    rewrite trimEnd_cons, IH. now destruct a.
Qed.

(** Whatever it is built from, the text has [node_modules] in it and ends
    with the line [test-results/]. *)
Lemma expected_gitignore_shape (existing : option jsstring) :
  exists head,
    expected_gitignore existing = head ++ js "test-results/" ++ LF
    /\ includes (expected_gitignore existing) (js "node_modules") = true
    /\ (head = [] \/ exists head', head = head' ++ LF).
Proof.
  destruct existing as [text|]; unfold expected_gitignore.
  - destruct (includes text (js "node_modules")) eqn:I.
    + exists (trimEnd text ++ LF). split; [|split].
      * now rewrite <- app_assoc.
      * rewrite app_assoc. apply includes_app_l.
        now rewrite includes_trimEnd.
      * right. now exists (trimEnd text).
    + exists ((trimEnd text ++ LF) ++ js "node_modules/" ++ LF). split; [|split].
      * now rewrite <- !app_assoc.
      * replace (trimEnd text ++ LF ++ (js "node_modules/" ++ LF) ++ js "test-results/" ++ LF)
          with ((trimEnd text ++ LF) ++ js "node_modules"
                ++ (js "/" ++ LF ++ js "test-results/" ++ LF))
          by (now rewrite <- !app_assoc).
        apply includes_middle.
      * right. exists ((trimEnd text ++ LF) ++ js "node_modules/").
        now rewrite <- !app_assoc.
  - exists (js "node_modules/" ++ LF). split; [reflexivity|]. split; [reflexivity|].
    right. now exists (js "node_modules/").
Qed.

(** Building from a built text appends the line [test-results/] again. *)
Lemma expected_gitignore_again (existing : option jsstring) :
  expected_gitignore (Some (expected_gitignore existing))
  = expected_gitignore existing ++ js "test-results/" ++ LF.
Proof.
  destruct (expected_gitignore_shape existing) as (head & E & I & _).
  unfold expected_gitignore at 1. rewrite I. simpl app at 2.
  rewrite E at 1.
  change (head ++ js "test-results/" ++ LF)
    with (head ++ js "test-results" ++ 47%N :: LF).
  rewrite app_assoc, trimEnd_tail by reflexivity.
  rewrite E. change (js "test-results/") with (js "test-results" ++ [47%N]).
  now rewrite <- !app_assoc.
Qed.

(** And so the line stands there twice at least. *)
Lemma expected_gitignore_twice (existing : option jsstring) :
  2 <= count_line (js "test-results/")
         (expected_gitignore (Some (expected_gitignore existing))).
Proof.
  rewrite expected_gitignore_again.
  destruct (expected_gitignore_shape existing) as (head & -> & _ & [->|(head' & ->)]).
  - vm_compute. lia.
  - rewrite <- !app_assoc.
    rewrite count_line_app, count_line_app.
    change (js "test-results/" ++ LF) with (js "test-results/" ++ LF ++ []).
    rewrite count_line_app.
    change (count_line (js "test-results/") (js "test-results/")) with 1.
    lia.
Qed.

End GitIgnoreFacts.

(* ================================================================== *)
(** ** The steps of the generator, one by one *)

(** Splits the first [bind] of a computation whose result [H] states:
    the step returned [r] and left the world [w1], as [E] records. *)
Tactic Notation "bind_inv" hyp(H) "as" ident(r) ident(w1) ident(E) :=
  unfold bind in H;
  match type of H with
  | context [match ?m ?w with _ => _ end] =>
      destruct (m w) as [[r|?] w1] eqn:E; [|try discriminate H]
  end.

Section StepFacts.

Context {FS : Type} (node : Node FS) (utils : Utils FS).

Lemma after_refl (w : World FS) : after w [] w.
Proof. split; [reflexivity | now rewrite app_nil_r]. Qed.

Lemma after_trans (w1 w2 w3 : World FS) (e1 e2 : list Event) :
  after w1 e1 w2 -> after w2 e2 w3 -> after w1 (e1 ++ e2) w3.
Proof.
  intros [T1 E1] [T2 E2]. split; [congruence|].
  now rewrite E2, E1, app_assoc.
Qed.

Lemma emit_after (e : Event) (w : World FS) :
  fst (emit e w) = Ok tt /\ fs (snd (emit e w)) = fs w
  /\ after w [e] (snd (emit e w)).
Proof. repeat split. Qed.

Lemma on_fs_after {A : Type} (f : FS -> outcome A * FS) (w : World FS) :
  after w [] (snd (on_fs f w)).
Proof.
  unfold on_fs. destruct (f (fs w)). split; simpl; [reflexivity|].
  now rewrite app_nil_r.
Qed.

Lemma printIntro_after (this : Generator) (w : World FS) :
  exists w' a b,
    _printIntro node this w = (Ok tt, w') /\ fs w' = fs w
    /\ after w [ConsoleLog a; ConsoleLog b] w'.
Proof.
  unfold _printIntro, console_log, bind, emit. simpl.
  do 3 eexists. split; [reflexivity|]. split; [reflexivity|].
  split; simpl; [reflexivity|]. now rewrite <- app_assoc.
Qed.

Lemma printOutro_after (this : Generator) (answers : PromptOptions) (w : World FS) :
  exists w' a b,
    _printOutro node utils this answers w = (Ok tt, w') /\ fs w' = fs w
    /\ after w [ConsoleLog a; ConsoleLog b] w'.
Proof.
  unfold _printOutro, console_log, bind, emit. simpl.
  do 3 eexists. split; [reflexivity|]. split; [reflexivity|].
  split; simpl; [reflexivity|]. now rewrite <- app_assoc.
Qed.

(** [_askQuestions]: the options of the environment when that value is
    truthy, the prompt otherwise. *)
Lemma askQuestions_eq (w : World FS) :
  _askQuestions node w =
  match TEST_OPTIONS w with
  | Some (c :: s) => (JSON_parse_options node (c :: s), w)
  | _ => (prompt node questions,
          {| fs := fs w; TEST_OPTIONS := TEST_OPTIONS w;
             trace := trace w ++ [Prompted questions] |})
  end.
Proof.
  unfold _askQuestions, bind, getenv_TEST_OPTIONS, lift, emit.
  destruct (TEST_OPTIONS w) as [[|c s]|] eqn:E; simpl; now rewrite ?E.
Qed.

Lemma askQuestions_after (w : World FS) :
  fs (snd (_askQuestions node w)) = fs w
  /\ after w (if truthy (option_map VStr (TEST_OPTIONS w)) then [] else [Prompted questions])
       (snd (_askQuestions node w)).
Proof.
  rewrite askQuestions_eq.
  destruct (TEST_OPTIONS w) as [[|c s]|] eqn:E; simpl; repeat split;
    try reflexivity; try assumption; now rewrite ?app_nil_r.
Qed.

Lemma executeCommands_cons (cwd : jsstring) (c : Command) (rest : list Command)
    (w : World FS) :
  executeCommands utils cwd (c :: rest) w =
  match on_fs (run_shell utils cwd (command c)) (snd (emit (Executed cwd c) w)) with
  | (Ok _, w2) => executeCommands utils cwd rest w2
  | (Throw e, w2) => (Throw e, w2)
  end.
Proof. reflexivity. Qed.

(** [executeCommands] runs the commands in their order, up to the first
    that fails. *)
Lemma executeCommands_after (cwd : jsstring) (commands : list Command) (w : World FS) :
  exists n,
    after w (map (Executed cwd) (firstn n commands))
      (snd (executeCommands utils cwd commands w))
    /\ (fst (executeCommands utils cwd commands w) = Ok tt -> n = List.length commands)
    /\ (n = List.length commands \/
        exists e, fst (executeCommands utils cwd commands w) = Throw e).
Proof.
  revert w; induction commands as [|c commands IH]; intros w.
  - exists 0. split; [apply after_refl|]. split; [reflexivity | now left].
  - rewrite executeCommands_cons.
    pose proof (emit_after (Executed cwd c) w) as (_ & _ & A1).
    pose proof (on_fs_after (run_shell utils cwd (command c))
                  (snd (emit (Executed cwd c) w))) as A2.
    destruct (on_fs (run_shell utils cwd (command c)) (snd (emit (Executed cwd c) w)))
      as [[[]|e] w2].
    + destruct (IH w2) as (n & A3 & Hok & Hn).
      pose proof (after_trans _ _ _ _ _ A1 A2) as A12.
      exists (S n). split; [|split].
      * exact (after_trans _ _ _ _ _ A12 A3).
      * intros H. simpl. f_equal. now apply Hok.
      * destruct Hn as [->|Hn]; [now left | now right].
    + exists 1. split; [|split].
      * exact (after_trans _ _ _ _ _ A1 A2).
      * discriminate.
      * right. now exists e.
Qed.

Lemma createFiles_after (root : jsstring) (files : Files) (force : option bool)
    (w : World FS) :
  after w [CreatedFiles root files force] (snd (createFiles utils root files force w)).
Proof.
  unfold createFiles, bind.
  destruct (emit (CreatedFiles root files force) w) as [r1 w1] eqn:E1.
  pose proof (emit_after (CreatedFiles root files force) w) as (R1 & _ & A1).
  rewrite E1 in R1, A1. simpl in R1, A1. subst r1.
  pose proof (on_fs_after (write_files utils root files force) w1) as A2.
  exact (after_trans _ _ _ _ _ A1 A2).
Qed.

(** [_buildGitIgnore] changes nothing and returns the text built from what
    it finds. *)
Lemma buildGitIgnore_eq (this : Generator) (w : World FS) :
  _buildGitIgnore node this w =
  (if existsSync node (Path.join [rootDir this; js ".gitignore"]) (fs w)
   then text <-- readFileSync node (Path.join [rootDir this; js ".gitignore"]) (fs w) ;;
        Ok (expected_gitignore (Some text))
   else Ok (expected_gitignore None),
   w).
Proof.
  unfold _buildGitIgnore, bind, reads, ret.
  destruct (existsSync node _ (fs w)); [|reflexivity].
  destruct (readFileSync node _ (fs w)) as [text|e]; [|reflexivity].
  unfold obind, expected_gitignore.
  rewrite (includes_trimEnd (js "node_modules") text eq_refl).
  destruct (includes text (js "node_modules")); simpl negb; cbv iota;
    now rewrite <- !app_assoc.
Qed.

Lemma readAsset_eq (asset : jsstring) (w : World FS) :
  _readAsset node asset w =
  (readFileSync node
     (Path.join [Path.join [__dirname node; js ".."; js "assets"]; asset]) (fs w), w).
Proof. reflexivity. Qed.

(** What a plan that was computed is made of. *)
Lemma identifyChanges_inv (this : Generator) (answers : PromptOptions)
    (w w' : World FS) (files : Files) (commands : list Command) :
  _identifyChanges node utils this answers w = (Ok (files, commands), w') ->
  w' = w
  /\ (exists config workflow example gitIgnore,
        let ext := languagetoFileExtension utils (language answers) in
        let files0 := Map_set [] (js "playwright.config." ++ ext) config in
        let files1 :=
          if installGitHubActions answers
          then Map_set files0 (js ".github/workflows/playwright.yml") workflow
          else files0 in
        let files2 :=
          Map_set files1 (Path.join [testDir answers; js "example.spec." ++ ext]) example in
        files = Map_set files2 (js ".gitignore") gitIgnore
        /\ _buildGitIgnore node this w = (Ok gitIgnore, w))
  /\ commands =
       (if existsSync node (Path.join [rootDir this; js "package.json"]) (fs w)
        then [] else [init_command (packageManager this)])
       ++ [install_command (packageManager this); download_command].
Proof.
  intros H. unfold _identifyChanges in H.
  bind_inv H as config w1 E1. rewrite readAsset_eq in E1. injection E1 as E1 <-.
  bind_inv H as files1 w2 E2.
  assert (w2 = w
          /\ exists workflow,
               files1 =
               if installGitHubActions answers
               then Map_set (Map_set [] (js "playwright.config."
                                         ++ languagetoFileExtension utils (language answers))
                               (executeTemplate utils config [(js "testDir", testDir answers)]))
                      (js ".github/workflows/playwright.yml") workflow
               else Map_set [] (js "playwright.config."
                                ++ languagetoFileExtension utils (language answers))
                      (executeTemplate utils config [(js "testDir", testDir answers)]))
    as (-> & workflow & ->).
  { destruct (installGitHubActions answers).
    - bind_inv E2 as workflow w3 E3.
      rewrite readAsset_eq in E3. injection E3 as _ <-.
      injection E2 as <- <-. split; [reflexivity|]. now eexists.
    - injection E2 as <- <-. split; [reflexivity|]. now exists []. }
  bind_inv H as example w3 E3. rewrite readAsset_eq in E3. injection E3 as E3 <-.
  bind_inv H as hasPackageJSON w4 E4. injection E4 as E4 <-.
  bind_inv H as gitIgnore w5 E5.
  assert (w5 = w) as ->.
  { rewrite buildGitIgnore_eq in E5. now injection E5. }
  injection H as <- <- <-.
  split; [reflexivity|]. split.
  - exists (executeTemplate utils config [(js "testDir", testDir answers)]),
      workflow, example, gitIgnore.
    cbv zeta. split; [reflexivity | first [assumption | reflexivity]].
  - subst hasPackageJSON. now destruct (existsSync node _ (fs w)).
Qed.

(** The plan depends on the world through what it reads, and on nothing
    else. *)
Lemma identifyChanges_reads (this : Generator) (answers : PromptOptions)
    (w1 w2 : World FS) :
  same_inputs node utils this answers (fs w1) (fs w2) ->
  fst (_identifyChanges node utils this answers w1)
  = fst (_identifyChanges node utils this answers w2).
Proof.
  unfold same_inputs, asset_path. cbv zeta.
  intros (Hconfig & Hworkflow & Hexample & Hpackage & Hthere & Hgitignore).
  assert (forall (k : jsstring -> outcome jsstring) (z : outcome jsstring),
            (if existsSync node (Path.join [rootDir this; js ".gitignore"]) (fs w2)
             then text <-- readFileSync node (Path.join [rootDir this; js ".gitignore"]) (fs w1) ;;
                  k text
             else z)
            = (if existsSync node (Path.join [rootDir this; js ".gitignore"]) (fs w2)
               then text <-- readFileSync node (Path.join [rootDir this; js ".gitignore"]) (fs w2) ;;
                    k text
               else z)) as G.
  { intros k z.
    destruct (existsSync node (Path.join [rootDir this; js ".gitignore"]) (fs w2)) eqn:T;
      [|reflexivity].
    rewrite Hthere in Hgitignore. now rewrite (Hgitignore eq_refl). }
  unfold _identifyChanges, bind, reads, ret, _readAsset.
  cbv beta iota zeta. rewrite Hconfig.
  destruct (readFileSync node _ (fs w2)) as [config|]; [|reflexivity].
  destruct (installGitHubActions answers) eqn:F; cbv beta iota.
  - rewrite (Hworkflow eq_refl).
    destruct (readFileSync node _ (fs w2)) as [workflow|]; [|reflexivity].
    cbv beta iota. rewrite Hexample.
    destruct (readFileSync node _ (fs w2)) as [example|]; [|reflexivity].
    cbv beta iota. rewrite Hpackage, !buildGitIgnore_eq, Hthere.
    rewrite G.
    now destruct (if existsSync node _ (fs w2) then _ else _).
  - clear Hworkflow. rewrite Hexample.
    destruct (readFileSync node _ (fs w2)) as [example|]; [|reflexivity].
    cbv beta iota. rewrite Hpackage, !buildGitIgnore_eq, Hthere.
    rewrite G.
    now destruct (if existsSync node _ (fs w2) then _ else _).
Qed.

Lemma same_inputs_refl (this : Generator) (answers : PromptOptions) (files : FS) :
  same_inputs node utils this answers files files.
Proof. unfold same_inputs. cbv zeta. repeat split; reflexivity. Qed.

(** [_patchPackageJSON]: read, parse, patch, and hand the text over. *)
Lemma patchPackageJSON_eq (this : Generator) (w : World FS) :
  _patchPackageJSON node utils this w =
  match
    text <-- readFileSync node (Path.join [rootDir this; js "package.json"]) (fs w) ;;
    packageJSON <-- JSON_parse node text ;;
    patchScripts packageJSON
  with
  | Ok patched =>
      createFiles utils (rootDir this)
        [(js "package.json", JSON_text node (printed patched) ++ LF)] (Some true) w
  | Throw e => (Throw e, w)
  end.
Proof.
  unfold _patchPackageJSON, bind, lift.
  destruct (readFileSync node _ (fs w)) as [text|]; [|reflexivity]. simpl.
  destruct (JSON_parse node text) as [packageJSON|]; [|reflexivity]. simpl.
  now destruct (patchScripts packageJSON).
Qed.

Lemma new_events_after {A : Type} (m : M FS A) (w : World FS) (evs : list Event) :
  after w evs (snd (m w)) -> new_events m w = evs.
Proof.
  intros [_ E]. unfold new_events. rewrite E.
  rewrite skipn_app, skipn_all, Nat.sub_diag. reflexivity.
Qed.

Lemma patchPackageJSON_after (this : Generator) (w w' : World FS) :
  _patchPackageJSON node utils this w = (Ok tt, w') ->
  exists package, after w [CreatedFiles (rootDir this) package (Some true)] w'.
Proof.
  rewrite patchPackageJSON_eq. destruct (obind _ _) as [patched|]; [|discriminate].
  intros H. eexists.
  pose proof (createFiles_after (rootDir this)
                [(js "package.json", JSON_text node (printed patched) ++ LF)]
                (Some true) w) as A.
  rewrite H in A. exact A.
Qed.

(** The plan is the same in worlds with the same file system. *)
Lemma identifyChanges_fs (this : Generator) (answers : PromptOptions)
    (w1 w2 : World FS) :
  fs w1 = fs w2 ->
  fst (_identifyChanges node utils this answers w1)
  = fst (_identifyChanges node utils this answers w2).
Proof.
  intros E. apply identifyChanges_reads. rewrite E. apply same_inputs_refl.
Qed.

(** A run that came to its end, step by step. *)
Lemma run_inv (this : Generator) (w w' : World FS) :
  run node utils this w = (Ok tt, w') ->
  exists a b answers files commands package c d,
    fst (_identifyChanges node utils this answers w) = Ok (files, commands)
    /\ after w
         ([ConsoleLog a; ConsoleLog b]
          ++ (if truthy (option_map VStr (TEST_OPTIONS w)) then [] else [Prompted questions])
          ++ map (Executed (rootDir this)) commands
          ++ [CreatedFiles (rootDir this) files None;
              CreatedFiles (rootDir this) package (Some true);
              ConsoleLog c; ConsoleLog d])
         w'.
Proof.
  intros H. unfold run in H.
  destruct (printIntro_after this w) as (w1 & a & b & E1 & F1 & A1).
  unfold bind at 1 in H. rewrite E1 in H.
  bind_inv H as answers w2 E2.
  destruct (askQuestions_after w1) as (F2 & A2). rewrite E2 in F2, A2. simpl in F2, A2.
  bind_inv H as plan w3 E3. destruct plan as [files commands].
  pose proof (identifyChanges_fs this answers w2 w (eq_trans F2 F1)) as P.
  rewrite E3 in P. simpl in P.
  apply identifyChanges_inv in E3 as (-> & _ & _).
  bind_inv H as u4 w4 E4. destruct u4.
  destruct (executeCommands_after (rootDir this) commands w2) as (n & A4 & Hn & _).
  rewrite E4 in A4, Hn. simpl in A4, Hn. rewrite (Hn eq_refl), firstn_all in A4.
  bind_inv H as u5 w5 E5. destruct u5.
  pose proof (createFiles_after (rootDir this) files None w4) as A5.
  rewrite E5 in A5. simpl in A5.
  bind_inv H as u6 w6 E6. destruct u6.
  destruct (patchPackageJSON_after this w5 w6 E6) as (package & A6).
  destruct (printOutro_after this answers w6) as (w7 & c & d & E7 & _ & A7).
  rewrite E7 in H. injection H as <-.
  exists a, b, answers, files, commands, package, c, d.
  split; [now symmetry|].
  pose proof A1 as [T1 _]. rewrite T1 in A2.
  pose proof (after_trans _ _ _ _ _ A1
                (after_trans _ _ _ _ _ A2
                   (after_trans _ _ _ _ _ A4
                      (after_trans _ _ _ _ _ A5
                         (after_trans _ _ _ _ _ A6 A7))))) as A.
  exact A.
Qed.

(** The two printing steps return. *)
Lemma printOutro_returns (this : Generator) (answers : PromptOptions)
    (w : World FS) (e : Error) (w' : World FS) :
  _printOutro node utils this answers w <> (Throw e, w').
Proof.
  destruct (printOutro_after this answers w) as (w1 & c & d & E & _). rewrite E.
  discriminate.
Qed.

(** [run] throws when one of its steps does, and only then. *)
Lemma run_throws_iff (this : Generator) (w : World FS) (e : Error) (w' : World FS) :
  run_throws node utils this w e w' <-> run node utils this w = (Throw e, w').
Proof.
  split.
  - intros H. unfold run, bind.
    destruct H as [w1 I A | w1 w2 answers I A P | w1 w2 w3 answers files commands I A P X
                  | w1 w2 w3 w4 answers files commands I A P X C
                  | w1 w2 w3 w4 w5 answers files commands I A P X C J];
      rewrite I, A; try reflexivity; rewrite P; try reflexivity;
      rewrite X; try reflexivity; rewrite C; try reflexivity;
      now rewrite J.
  - intros H. unfold run in H.
    destruct (printIntro_after this w) as (w1 & a & b & E1 & _).
    unfold bind at 1 in H. rewrite E1 in H.
    unfold bind at 1 in H.
    destruct (_askQuestions node w1) as [[answers|e2] w2] eqn:E2.
    2:{ injection H as -> ->. now apply in_askQuestions with w1. }
    unfold bind at 1 in H.
    destruct (_identifyChanges node utils this answers w2) as [[[files commands]|e3] w3] eqn:E3.
    2:{ injection H as -> ->. now apply in_identifyChanges with w1 w2 answers. }
    unfold bind at 1 in H.
    destruct (executeCommands utils (rootDir this) commands w3) as [[[]|e4] w4] eqn:E4.
    2:{ injection H as -> ->.
        now apply in_executeCommands with w1 w2 w3 answers files commands. }
    unfold bind at 1 in H.
    destruct (createFiles utils (rootDir this) files None w4) as [[[]|e5] w5] eqn:E5.
    2:{ injection H as -> ->.
        now apply in_createFiles with w1 w2 w3 w4 answers files commands. }
    unfold bind at 1 in H.
    destruct (_patchPackageJSON node utils this w5) as [[[]|e6] w6] eqn:E6.
    2:{ injection H as -> ->.
        now apply in_patchPackageJSON with w1 w2 w3 w4 w5 answers files commands. }
    now apply printOutro_returns in H.
Qed.

(** The entry point throws when one of its steps does, and only then. *)
Lemma generate_throws_iff (w : World FS) (e : Error) (w' : World FS) :
  generate_throws node utils w e w' <-> generate node utils w = (Throw e, w').
Proof.
  split.
  - intros H. unfold generate, bind.
    destruct H as [D -> | root D N | root this w1 D N R]; rewrite D;
      try reflexivity; rewrite N; try reflexivity.
    now apply run_throws_iff.
  - intros H. unfold generate in H.
    unfold bind at 1 in H.
    destruct (determineRootDir utils (fs w)) as [root|e1] eqn:D.
    2:{ injection H as -> ->. now apply in_determineRootDir. }
    unfold bind at 1 in H.
    destruct (new_Generator node utils root w) as [[this|e2] w1] eqn:N.
    2:{ injection H as -> ->. now apply in_constructor with root. }
    apply in_run with root this w1; try assumption.
    now apply run_throws_iff.
Qed.

End StepFacts.

(* ================================================================== *)
(** ** The patch of the parsed [package.json] *)

Section PatchFacts.

Lemma obind_inv {A B : Type} (m : outcome A) (k : A -> outcome B) (b : B) :
  obind m k = Ok b -> exists a, m = Ok a /\ k a = Ok b.
Proof. destruct m as [a|e]; simpl; [now exists a | discriminate]. Qed.

Lemma get_inv (v : value) (k : jsstring) (r : option value) :
  Access.get (Some v) k = Ok r -> r = lookup k (props_of v).
Proof. destruct v; simpl; congruence. Qed.

Lemma set_inv (v : value) (k : jsstring) (x v' : value) :
  Access.set (Some v) k x = Ok v' ->
  has_props v = true /\ v' = with_props v (assign k x (props_of v)).
Proof. destruct v; simpl; try discriminate; intros [= <-]; now split. Qed.

Lemma delete_inv (v : value) (k : jsstring) (v' : value) :
  Access.delete (Some v) k = Ok v' -> v' = with_props v (remove k (props_of v)).
Proof. destruct v; simpl; congruence. Qed.

Lemma mutated_eq (v : value) (k : jsstring) (x : value) :
  Access.mutated v k x = with_props v (assign k x (props_of v)).
Proof. now destruct v. Qed.

Lemma props_of_with_props (v : value) (l : list (jsstring * value)) :
  has_props v = true -> props_of (with_props v l) = l.
Proof. destruct v; simpl; congruence. Qed.

Lemma with_props_with_props (v : value) (l l' : list (jsstring * value)) :
  with_props (with_props v l) l' = with_props v l'.
Proof. now destruct v. Qed.

Lemma has_props_with_props (v : value) (l : list (jsstring * value)) :
  has_props (with_props v l) = has_props v.
Proof. now destruct v. Qed.

Lemma assign_assign {A : Type} (k : jsstring) (x y : A) (l : list (jsstring * A)) :
  assign k y (assign k x l) = assign k y l.
Proof.
  induction l as [|[k' v'] l IH]; simpl.
  - now rewrite str_eqb_refl.
  - destruct (str_eqb k k') eqn:E; simpl.
    + now rewrite str_eqb_refl.
    + now rewrite E, IH.
Qed.

Lemma has_props_lookup (v : value) (k : jsstring) (x : value) :
  lookup k (props_of v) = Some x -> has_props v = true.
Proof. destruct v; simpl; congruence. Qed.

(** What a patch that went through has done. *)
Lemma patchScripts_inv (packageJSON patched : value) :
  patchScripts packageJSON = Ok patched ->
  let scripts := scripts_to_patch packageJSON in
  has_props packageJSON = true /\ has_props scripts = true
  /\ exists no_test,
       Access.optional_includes (lookup (js "test") (props_of scripts))
         (js "no test specified") = Ok no_test
       /\ patched =
          with_props packageJSON
            (assign (js "scripts")
               (with_props scripts
                  (assign PACKAGE_JSON_TEST_SCRIPT_CMD (VStr (js "playwright test"))
                     (if no_test then remove (js "test") (props_of scripts)
                      else props_of scripts)))
               (props_of packageJSON)).
Proof.
  intros H. unfold patchScripts in H.
  apply obind_inv in H as (s0 & G0 & H). apply get_inv in G0.
  apply obind_inv in H as (v1 & C & H).
  assert (has_props packageJSON = true
          /\ exists l1, v1 = with_props packageJSON l1
               /\ lookup (js "scripts") l1 = Some (scripts_to_patch packageJSON)
               /\ forall x, assign (js "scripts") x l1
                            = assign (js "scripts") x (props_of packageJSON))
    as (P & l1 & -> & L1 & A1).
  { unfold scripts_to_patch. rewrite <- G0.
    destruct (truthy s0) eqn:T; simpl in C.
    - injection C as <-. destruct s0 as [s|]; [|discriminate].
      rewrite T. pose proof (has_props_lookup packageJSON _ s (eq_sym G0)) as P.
      split; [assumption|]. exists (props_of packageJSON).
      split; [now destruct packageJSON|]. split; [now symmetry | reflexivity].
    - apply set_inv in C as (P & ->). split; [assumption|].
      exists (assign (js "scripts") (VObj []) (props_of packageJSON)).
      split; [reflexivity|]. split.
      + rewrite lookup_assign_same. destruct s0 as [s|]; [now rewrite T | reflexivity].
      + intros x. apply assign_assign. }
  cbv zeta. set (scripts := scripts_to_patch packageJSON) in *.
  apply obind_inv in H as (s1 & G1 & H). apply get_inv in G1.
  rewrite props_of_with_props, L1 in G1 by assumption. subst s1.
  apply obind_inv in H as (test & G2 & H). apply get_inv in G2. subst test.
  apply obind_inv in H as (no_test & I & H).
  apply obind_inv in H as (v2 & D & H).
  apply obind_inv in H as (s2 & G3 & H). apply get_inv in G3.
  apply obind_inv in H as (s3 & S & H). injection H as <-.
  rewrite mutated_eq.
  destruct no_test.
  - assert (has_props scripts = true) as Q.
    { destruct (lookup (js "test") (props_of scripts)) as [t|] eqn:T; [|discriminate I].
      exact (has_props_lookup _ _ _ T). }
    split; [assumption|]. split; [assumption|]. exists true. split; [assumption|].
    apply obind_inv in D as (s1' & D & M). apply delete_inv in D. subst s1'.
    injection M as <-. rewrite mutated_eq in G3. rewrite mutated_eq.
    rewrite with_props_with_props in G3. rewrite !with_props_with_props.
    rewrite props_of_with_props in G3 by assumption.
    rewrite lookup_assign_same in G3. subst s2.
    apply set_inv in S as (_ & ->).
    rewrite !props_of_with_props by assumption.
    now rewrite with_props_with_props, !assign_assign, A1.
  - injection D as <-.
    rewrite props_of_with_props in G3 by assumption.
    rewrite L1 in G3. subst s2.
    apply set_inv in S as (Q & ->).
    split; [assumption|]. split; [assumption|]. exists false. split; [assumption|].
    rewrite props_of_with_props by assumption.
    now rewrite with_props_with_props, A1.
Qed.

Lemma array_includes_printed (elems : list value) (x : jsstring) :
  Access.array_includes (map printed elems) x = Access.array_includes elems x.
Proof.
  unfold Access.array_includes. induction elems as [|e elems IH]; [reflexivity|].
  simpl. rewrite IH. now destruct e.
Qed.

(** The test [includes] made is the one read off the printed document. *)
Lemma says_no_test_specified_printed (test : option value) (no_test : bool) :
  Access.optional_includes test (js "no test specified") = Ok no_test ->
  says_no_test_specified (option_map printed test) = no_test.
Proof.
  destruct test as [[| | | |elems named|]|]; simpl; try congruence.
  destruct (lookup (js "includes") named); [discriminate|].
  rewrite array_includes_printed. congruence.
Qed.

Lemma members_printed_with_props (v : value) (l : list (jsstring * value)) :
  members (printed (with_props v l)) =
  match v with
  | VObj _ => map (fun kv => let '(k, x) := kv in (k, printed x)) l
  | _ => []
  end.
Proof. now destruct v. Qed.

Lemma members_printed (v : value) :
  members (printed v) =
  match v with
  | VObj props => map (fun kv => let '(k, x) := kv in (k, printed x)) props
  | _ => []
  end.
Proof. now destruct v. Qed.

(** The [scripts] entries of a printed object are those of the object
    line 142 leaves under [scripts]. *)
Lemma scripts_of_printed (props : list (jsstring * value)) :
  scripts_of (printed (VObj props))
  = members (printed (scripts_to_patch (VObj props))).
Proof.
  unfold scripts_of, scripts_to_patch. simpl props_of.
  rewrite members_printed, lookup_printed.
  destruct (lookup (js "scripts") props) as [s|]; [|reflexivity].
  destruct s as [|[]|n|[|c s]|elems named|sp]; simpl; try reflexivity.
  now destruct (negb _).
Qed.

(** The printed document before and after the patch. *)
Lemma patched_document (packageJSON patched : value) :
  patchScripts packageJSON = Ok patched ->
  (forall k, str_eqb k (js "scripts") = false ->
     lookup k (members (printed patched)) = lookup k (members (printed packageJSON)))
  /\ (forall elems named, packageJSON = VArr elems named ->
        printed patched = printed packageJSON)
  /\ (forall k, str_eqb k PACKAGE_JSON_TEST_SCRIPT_CMD = false ->
        str_eqb k (js "test") = false ->
        lookup k (scripts_of (printed patched))
        = lookup k (scripts_of (printed packageJSON)))
  /\ lookup (js "test") (scripts_of (printed patched))
     = (if says_no_test_specified (lookup (js "test") (scripts_of (printed packageJSON)))
        then None
        else lookup (js "test") (scripts_of (printed packageJSON)))
  /\ (forall props, packageJSON = VObj props ->
        is_array (lookup (js "scripts") props) = false ->
        lookup PACKAGE_JSON_TEST_SCRIPT_CMD (scripts_of (printed patched))
        = Some (VStr (js "playwright test"))).
Proof.
  intros H. apply patchScripts_inv in H. cbv zeta in H.
  destruct H as (P & Q & no_test & I & ->).
  destruct packageJSON as [| | | |elems named|props]; try discriminate P.
  - (* an array: nothing of the patch is printed *)
    repeat split; try reflexivity; try discriminate.
  - simpl with_props. simpl props_of.
    set (scripts := scripts_to_patch (VObj props)) in *.
    assert (scripts_of (printed (VObj (assign (js "scripts")
              (with_props scripts
                 (assign PACKAGE_JSON_TEST_SCRIPT_CMD (VStr (js "playwright test"))
                    (if no_test then remove (js "test") (props_of scripts)
                     else props_of scripts)))
              props)))
            = members (printed (with_props scripts
                 (assign PACKAGE_JSON_TEST_SCRIPT_CMD (VStr (js "playwright test"))
                    (if no_test then remove (js "test") (props_of scripts)
                     else props_of scripts))))) as After.
    { unfold scripts_of. rewrite members_printed, lookup_printed, lookup_assign_same.
      simpl option_map.
      destruct scripts; try discriminate Q; reflexivity. }
    rewrite After, scripts_of_printed. fold scripts.
    rewrite members_printed_with_props.
    split; [|split; [|split; [|split]]].
    + intros k K. rewrite !members_printed, !lookup_printed.
      now rewrite lookup_assign_other.
    + discriminate.
    + intros k K1 K2. destruct scripts as [| | | |elems named|sp]; try reflexivity.
      rewrite members_printed, !lookup_printed, lookup_assign_other by assumption.
      simpl props_of. destruct no_test; [|reflexivity].
      now rewrite lookup_remove_other.
    + destruct scripts as [| | | |elems named|sp]; try reflexivity.
      rewrite members_printed, !lookup_printed.
      rewrite lookup_assign_other by reflexivity.
      simpl props_of in *.
      rewrite (says_no_test_specified_printed _ _ I).
      destruct no_test; [|reflexivity].
      now rewrite lookup_remove_same.
    + intros props' [= <-] A.
      assert (is_array (Some scripts) = false) as A'.
      { unfold scripts, scripts_to_patch. simpl props_of.
        destruct (lookup (js "scripts") props) as [s|]; [|reflexivity].
        destruct (truthy (Some s)); [assumption | reflexivity]. }
      destruct scripts as [| | | |elems named|sp]; try discriminate.
      now rewrite lookup_printed, lookup_assign_same.
Qed.

End PatchFacts.

(* ================================================================== *)
(** * The properties of the specification *)

Section Claims.

Context {FS : Type} (node : Node FS) (utils : Utils FS).

(** C10 (as the code has it). The text [_buildGitIgnore] returns. With a
    [.gitignore] in place it begins with the text read less the white
    space at its end (what is cut is white space only, and what is kept
    does not end in white space), and one line feed; after it comes the
    line [node_modules/], appended exactly when the text read does not
    include [node_modules]; then the line [test-results/]. So the lines
    [node_modules/] of the result are those of the kept text, and one more
    exactly when one was appended. Without a [.gitignore] the result is
    the two lines [node_modules/] and [test-results/]. Nothing else
    changes, and an error of the read is the result. *)
Theorem buildGitIgnore_text (this : Generator) (w : World FS) :
  let path := Path.join [rootDir this; js ".gitignore"] in
  if existsSync node path (fs w)
  then
    match readFileSync node path (fs w) with
    | Ok text =>
        exists kept trimmed middle,
          text = kept ++ trimmed
          /\ forallb is_whitespace trimmed = true
          /\ ends_in_whitespace kept = false
          /\ _buildGitIgnore node this w
             = (Ok ((kept ++ LF) ++ middle ++ js "test-results/" ++ LF), w)
          /\ middle = (if includes text (js "node_modules")
                       then [] else js "node_modules/" ++ LF)
          /\ count_line (js "node_modules/")
               ((kept ++ LF) ++ middle ++ js "test-results/" ++ LF)
             = count_line (js "node_modules/") kept
               + (if includes text (js "node_modules") then 0 else 1)
    | Throw e => _buildGitIgnore node this w = (Throw e, w)
    end
  else
    _buildGitIgnore node this w
    = (Ok (js "node_modules/" ++ LF ++ js "test-results/" ++ LF), w).
Proof.
  cbv zeta. rewrite buildGitIgnore_eq.
  destruct (existsSync node _ (fs w)); [|reflexivity].
  destruct (readFileSync node _ (fs w)) as [text|e]; [|reflexivity].
  simpl obind. unfold expected_gitignore.
  destruct (trimEnd_split text) as (ws & E & Hws).
  exists (trimEnd text), ws,
    (if includes text (js "node_modules") then [] else js "node_modules/" ++ LF).
  split; [exact E|]. split; [exact Hws|]. split; [apply trimEnd_ends|].
  split; [now rewrite <- !app_assoc|]. split; [reflexivity|].
  rewrite <- app_assoc, count_line_app.
  now destruct (includes text (js "node_modules")).
Qed.

(** C2 (the code departs from it). A [.gitignore] built once and built
    from again: the second text is the first with the line [test-results/]
    appended once more, so that line stands in it twice at least. *)
Theorem gitignore_rebuilt_repeats_test_results
    (this : Generator) (w0 w0' w : World FS) (built : jsstring) :
  _buildGitIgnore node this w0 = (Ok built, w0') ->
  existsSync node (Path.join [rootDir this; js ".gitignore"]) (fs w) = true ->
  readFileSync node (Path.join [rootDir this; js ".gitignore"]) (fs w) = Ok built ->
  _buildGitIgnore node this w = (Ok (built ++ js "test-results/" ++ LF), w)
  /\ 2 <= count_line (js "test-results/") (built ++ js "test-results/" ++ LF).
Proof.
  intros B0 There Read.
  assert (exists existing, built = expected_gitignore existing) as (existing & ->).
  { rewrite buildGitIgnore_eq in B0.
    destruct (existsSync node _ (fs w0)).
    - destruct (readFileSync node _ (fs w0)) as [text|]; [|discriminate].
      exists (Some text). cbn [obind] in B0. now injection B0 as <- _.
    - exists None. now injection B0 as <- _. }
  rewrite buildGitIgnore_eq, There, Read. cbn [obind].
  rewrite expected_gitignore_again. split; [reflexivity|].
  rewrite <- expected_gitignore_again. apply expected_gitignore_twice.
Qed.

(** C3. The plan and the text of [package.json] are functions of the
    answers and of what is read: two worlds whose file systems answer
    alike at the places the plan looks (and at [package.json], for the
    patch) give the same files with the same contents, the same commands
    (or the same error), and the same [package.json] handed over for
    writing, whatever else differs between them. *)
Theorem plan_is_deterministic (this : Generator) (answers : PromptOptions)
    (w1 w2 : World FS) :
  same_inputs node utils this answers (fs w1) (fs w2) ->
  readFileSync node (Path.join [rootDir this; js "package.json"]) (fs w1)
  = readFileSync node (Path.join [rootDir this; js "package.json"]) (fs w2) ->
  fst (_identifyChanges node utils this answers w1)
  = fst (_identifyChanges node utils this answers w2)
  /\ new_events (_patchPackageJSON node utils this) w1
     = new_events (_patchPackageJSON node utils this) w2.
Proof.
  intros Same Package. split; [now apply identifyChanges_reads|].
  assert (forall w,
            new_events (_patchPackageJSON node utils this) w =
            match
              text <-- readFileSync node (Path.join [rootDir this; js "package.json"]) (fs w) ;;
              packageJSON <-- JSON_parse node text ;;
              patchScripts packageJSON
            with
            | Ok patched =>
                [CreatedFiles (rootDir this)
                   [(js "package.json", JSON_text node (printed patched) ++ LF)] (Some true)]
            | Throw _ => []
            end) as E.
  { intros w. apply new_events_after. rewrite patchPackageJSON_eq.
    destruct (obind _ _); [apply createFiles_after | apply after_refl]. }
  now rewrite !E, Package.
Qed.

(** C5 (as the code has it). [_askQuestions] takes the answers from
    [TEST_OPTIONS], parsed, and asks nothing, when the variable holds a
    text that is not empty; when it is not set, or set to the empty text,
    it asks the three questions [language], [testDir] and
    [installGitHubActions], in this order, and returns what the prompt
    gives. *)
Theorem askQuestions_source (w : World FS) :
  match TEST_OPTIONS w with
  | Some (c :: s) => _askQuestions node w = (JSON_parse_options node (c :: s), w)
  | _ =>
      _askQuestions node w
      = (prompt node questions,
         {| fs := fs w; TEST_OPTIONS := TEST_OPTIONS w;
            trace := trace w ++ [Prompted questions] |})
      /\ map q_name questions = [js "language"; js "testDir"; js "installGitHubActions"]
  end.
Proof.
  rewrite askQuestions_eq.
  destruct (TEST_OPTIONS w) as [[|c s]|]; try split; reflexivity.
Qed.

(** C6. A plan that was computed holds the configuration file
    [playwright.config.<ext>], the example test [example.spec.<ext>]
    joined to the test directory, and [.gitignore]; it holds the workflow
    [.github/workflows/playwright.yml] exactly when the answer
    [installGitHubActions] is true. The extension is what
    [languagetoFileExtension] gives, taken to be free of slashes. *)
Theorem plan_files (this : Generator) (answers : PromptOptions)
    (w w' : World FS) (files : Files) (commands : list Command) :
  has_no_slash (languagetoFileExtension utils (language answers)) = true ->
  _identifyChanges node utils this answers w = (Ok (files, commands), w') ->
  let ext := languagetoFileExtension utils (language answers) in
  Map_has files (js "playwright.config." ++ ext) = true
  /\ Map_has files (Path.join [testDir answers; js "example.spec." ++ ext]) = true
  /\ Map_has files (js ".gitignore") = true
  /\ Map_has files (js ".github/workflows/playwright.yml") = installGitHubActions answers.
Proof.
  intros Hext H. apply identifyChanges_inv in H.
  destruct H as (_ & (config & workflow & example & gitIgnore & F & _) & _).
  cbv zeta in F |- *. subst files.
  set (ext := languagetoFileExtension utils (language answers)) in *.
  repeat split.
  - do 2 apply Map_has_set_keep.
    destruct (installGitHubActions answers);
      [apply Map_has_set_keep|]; apply Map_has_set_same.
  - apply Map_has_set_keep, Map_has_set_same.
  - apply Map_has_set_same.
  - rewrite !Map_has_set.
    rewrite (example_is_not_workflow (testDir answers) ext Hext).
    change (str_eqb (js ".github/workflows/playwright.yml") (js ".gitignore")) with false.
    destruct (installGitHubActions answers); rewrite ?Map_has_set.
    + now rewrite str_eqb_refl.
    + reflexivity.
Qed.

(** C7 (as the code has it). When the patch step has gone through on a
    [package.json] that parses to an object whose [scripts] member is no
    array, the document handed over for writing is the patched one
    followed by a line feed, and its [scripts] object maps [test:e2e] to
    [playwright test]. *)
Theorem patched_package_json_has_script (this : Generator) (w w' : World FS)
    (text : jsstring) (props : list (jsstring * value)) :
  readFileSync node (Path.join [rootDir this; js "package.json"]) (fs w) = Ok text ->
  JSON_parse node text = Ok (VObj props) ->
  is_array (lookup (js "scripts") props) = false ->
  _patchPackageJSON node utils this w = (Ok tt, w') ->
  exists patched,
    patchScripts (VObj props) = Ok patched
    /\ new_events (_patchPackageJSON node utils this) w
       = [CreatedFiles (rootDir this)
            [(js "package.json", JSON_text node (printed patched) ++ LF)] (Some true)]
    /\ lookup PACKAGE_JSON_TEST_SCRIPT_CMD (scripts_of (printed patched))
       = Some (VStr (js "playwright test")).
Proof.
  intros Read Parse Array H.
  pose proof (patchPackageJSON_eq node utils this w) as E.
  rewrite Read in E. cbn [obind] in E. rewrite Parse in E. cbn [obind] in E.
  destruct (patchScripts (VObj props)) as [patched|e] eqn:P;
    [|rewrite E in H; discriminate].
  exists patched. split; [reflexivity|]. split.
  - apply new_events_after. rewrite E. apply createFiles_after.
  - destruct (patched_document _ _ P) as (_ & _ & _ & _ & Script).
    now apply (Script props).
Qed.


(** C8 (as the code has it). In a plan that was computed every path is
    relative provided the test directory answered is; the commands are
    the initialisation of the project, there exactly when the root
    directory has no [package.json], then the installation of Playwright
    Test, then the download of the browsers; and [executeCommands] runs
    them in this order, stopping at the first that fails. *)
Theorem plan_paths_and_commands (this : Generator) (answers : PromptOptions)
    (w w' : World FS) (files : Files) (commands : list Command) :
  _identifyChanges node utils this answers w = (Ok (files, commands), w') ->
  (Path.isAbsolute (testDir answers) = false ->
   forall entry, In entry files -> Path.isAbsolute (fst entry) = false)
  /\ commands =
       (if existsSync node (Path.join [rootDir this; js "package.json"]) (fs w)
        then [] else [init_command (packageManager this)])
       ++ [install_command (packageManager this); download_command]
  /\ (forall w0, exists n,
        after w0 (map (Executed (rootDir this)) (firstn n commands))
          (snd (executeCommands utils (rootDir this) commands w0))
        /\ (fst (executeCommands utils (rootDir this) commands w0) = Ok tt ->
            n = List.length commands)).
Proof.
  intros H. apply identifyChanges_inv in H.
  destruct H as (_ & (config & workflow & example & gitIgnore & F & _) & C).
  cbv zeta in F. split; [|split; [exact C|]].
  - intros Rel entry Hin. subst files.
    apply In_Map_set in Hin as [->|Hin]; [reflexivity|].
    apply In_Map_set in Hin as [->|Hin].
    { now apply isAbsolute_join. }
    destruct (installGitHubActions answers).
    + apply In_Map_set in Hin as [->|Hin]; [reflexivity|].
      apply In_Map_set in Hin as [->|[]]. reflexivity.
    + apply In_Map_set in Hin as [->|[]]. reflexivity.
  - intros w0. destruct (executeCommands_after utils (rootDir this) commands w0)
      as (n & A & Hok & _).
    now exists n.
Qed.

(** C1 (as the code has it). A run that comes to its end goes through its
    phases in this order: it prints the introduction, asks for the answers
    (unless [TEST_OPTIONS] gives them), runs the commands of the plan one
    after another, writes the files of the plan, patches [package.json],
    and prints the guidance; each phase is over when the next begins. *)
Theorem run_phase_order (this : Generator) (w w' : World FS) :
  run node utils this w = (Ok tt, w') ->
  exists answers files commands events,
    fst (_identifyChanges node utils this answers w) = Ok (files, commands)
    /\ after w events w'
    /\ (exists a b package c d,
          events =
          [ConsoleLog a; ConsoleLog b]
          ++ (if truthy (option_map VStr (TEST_OPTIONS w)) then [] else [Prompted questions])
          ++ map (Executed (rootDir this)) commands
          ++ [CreatedFiles (rootDir this) files None;
              CreatedFiles (rootDir this) package (Some true);
              ConsoleLog c; ConsoleLog d])
    /\ phases events =
       [Printing]
       ++ (if truthy (option_map VStr (TEST_OPTIONS w)) then [] else [Prompting])
       ++ [RunningCommands; WritingFiles; PatchingPackageJSON; Printing].
Proof.
  intros H.
  destruct (run_inv node utils this w w' H)
    as (a & b & answers & files & commands & package & c & d & P & A).
  exists answers, files, commands. eexists.
  split; [exact P|]. split; [exact A|]. split; [now exists a, b, package, c, d|].
  destruct (_identifyChanges node utils this answers w) as [r w0] eqn:E.
  simpl in P. subst r.
  apply identifyChanges_inv in E as (_ & _ & ->).
  destruct (truthy (option_map VStr (TEST_OPTIONS w)));
    destruct (existsSync node _ (fs w)); reflexivity.
Qed.

(** C4. The process ends with code 1 when a step of the entry point
    throws, the error of that step having been printed last, and with
    code 0 when none does; the steps that can throw are finding the root
    directory, constructing the generator, and those of [run] (asking,
    planning, running the commands, writing the files, patching
    [package.json]), and an error comes from one of them and from nowhere
    else. *)
Theorem main_exit_code (w : World FS) :
  (forall e w', generate_throws node utils w e w' <-> generate node utils w = (Throw e, w'))
  /\ (forall this w1 e w',
        run_throws node utils this w1 e w' <-> run node utils this w1 = (Throw e, w'))
  /\ ((exists w', generate node utils w = (Ok tt, w') /\ main node utils w = (0%Z, w'))
      \/ (exists e w',
            generate node utils w = (Throw e, w')
            /\ main node utils w
               = (1%Z, {| fs := fs w'; TEST_OPTIONS := TEST_OPTIONS w';
                          trace := trace w' ++ [ConsoleError e] |}))).
Proof.
  split; [intros e w'; apply generate_throws_iff|].
  split; [intros this w1 e w'; apply run_throws_iff|].
  unfold main. destruct (generate node utils w) as [[[]|e] w'].
  - left. now exists w'.
  - right. now exists e, w'.
Qed.

End Claims.

(* ================================================================== *)
(** * The properties at work on the small installation *)

Lemma gitignore_rebuilt_repeats_test_results_witness :
  _buildGitIgnore Demo.node Demo.generator Demo.second_run
  = (Ok (js "node_modules/" ++ LF ++ js "test-results/" ++ LF ++ js "test-results/" ++ LF),
     Demo.second_run)
  /\ 2 <= count_line (js "test-results/")
            (js "node_modules/" ++ LF ++ js "test-results/" ++ LF ++ js "test-results/" ++ LF).
Proof.
  exact (gitignore_rebuilt_repeats_test_results Demo.node Demo.generator
           Demo.fresh Demo.fresh Demo.second_run
           (js "node_modules/" ++ LF ++ js "test-results/" ++ LF)
           eq_refl eq_refl eq_refl).
Defined.


Lemma plan_is_deterministic_witness :
  fst (_identifyChanges Demo.node Demo.utils Demo.generator Demo.TS_answers Demo.second_run)
  = fst (_identifyChanges Demo.node Demo.utils Demo.generator Demo.TS_answers Demo.second_run')
  /\ new_events (_patchPackageJSON Demo.node Demo.utils Demo.generator) Demo.second_run
     = new_events (_patchPackageJSON Demo.node Demo.utils Demo.generator) Demo.second_run'.
Proof.
  apply (plan_is_deterministic Demo.node Demo.utils Demo.generator Demo.TS_answers
           Demo.second_run Demo.second_run').
  - repeat split; intros; vm_compute; reflexivity.
  - vm_compute. reflexivity.
Defined.

Lemma plan_files_witness :
  Map_has (fst Demo.TS_plan) (js "playwright.config.ts") = true
  /\ Map_has (fst Demo.TS_plan) (js "e2e/example.spec.ts") = true
  /\ Map_has (fst Demo.TS_plan) (js ".gitignore") = true
  /\ Map_has (fst Demo.TS_plan) (js ".github/workflows/playwright.yml") = true.
Proof.
  assert (_identifyChanges Demo.node Demo.utils Demo.generator Demo.TS_answers Demo.fresh
          = (Ok (fst Demo.TS_plan, snd Demo.TS_plan), Demo.fresh)) as Plan
    by (vm_compute; reflexivity).
  exact (plan_files Demo.node Demo.utils Demo.generator Demo.TS_answers
           Demo.fresh Demo.fresh (fst Demo.TS_plan) (snd Demo.TS_plan) eq_refl Plan).
Defined.

Lemma patched_package_json_has_script_witness :
  exists patched,
    patchScripts Demo.app_package = Ok patched
    /\ new_events (_patchPackageJSON Demo.node Demo.utils Demo.generator) Demo.second_run
       = [CreatedFiles (js "proj")
            [(js "package.json", Demo.text_of (printed patched) ++ LF)] (Some true)]
    /\ lookup PACKAGE_JSON_TEST_SCRIPT_CMD (scripts_of (printed patched))
       = Some (VStr (js "playwright test")).
Proof.
  apply (patched_package_json_has_script Demo.node Demo.utils Demo.generator
           Demo.second_run
           (snd (_patchPackageJSON Demo.node Demo.utils Demo.generator Demo.second_run))
           Demo.app_text Demo.app_members);
    vm_compute; reflexivity.
Defined.


Lemma plan_paths_and_commands_witness :
  (forall entry, In entry (fst Demo.TS_plan) -> Path.isAbsolute (fst entry) = false)
  /\ snd Demo.TS_plan = [init_command npm; install_command npm; download_command].
Proof.
  assert (_identifyChanges Demo.node Demo.utils Demo.generator Demo.TS_answers Demo.fresh
          = (Ok (fst Demo.TS_plan, snd Demo.TS_plan), Demo.fresh)) as Plan
    by (vm_compute; reflexivity).
  destruct (plan_paths_and_commands Demo.node Demo.utils Demo.generator Demo.TS_answers
              Demo.fresh Demo.fresh (fst Demo.TS_plan) (snd Demo.TS_plan) Plan)
    as (Paths & Commands & _).
  split; [exact (Paths eq_refl) | exact Commands].
Defined.

Lemma run_phase_order_witness :
  exists events,
    after Demo.fresh events (snd (run Demo.node Demo.utils Demo.generator Demo.fresh))
    /\ phases events =
       [Printing; Prompting; RunningCommands; WritingFiles; PatchingPackageJSON; Printing].
Proof.
  destruct (run_phase_order Demo.node Demo.utils Demo.generator Demo.fresh
              (snd (run Demo.node Demo.utils Demo.generator Demo.fresh)))
    as (answers & files & commands & events & _ & A & _ & P).
  - vm_compute. reflexivity.
  - exists events. split; [exact A | exact P].
Defined.

(** A [package.json] that is not JSON: the commands have run and the files
    are written when the parse throws; the error is printed last and the
    process ends with code 1. *)
Example broken_package_exits_with_1 :
  fst (main Demo.node Demo.utils Demo.broken_package) = 1%Z
  /\ phases (trace (snd (main Demo.node Demo.utils Demo.broken_package)))
     = [Printing; Prompting; RunningCommands; WritingFiles; Printing]
  /\ last (trace (snd (main Demo.node Demo.utils Demo.broken_package))) (ConsoleLog [])
     = ConsoleError (SyntaxError (js "Unexpected token")).
Proof. vm_compute. repeat split. Qed.

(** With [TEST_OPTIONS] holding the options nothing is asked. *)
Example options_from_the_environment :
  _askQuestions Demo.node Demo.with_options = (Ok Demo.JS_answers, Demo.with_options).
Proof. vm_compute. reflexivity. Qed.

(* ================================================================== *)
(** * Where the code departs from what the specification says *)

(** Against C1: in a run on a fresh directory the commands are run before
    the files of the plan are written, not after. *)
Lemma files_are_written_after_the_commands :
  fst (run Demo.node Demo.utils Demo.generator Demo.fresh) = Ok tt
  /\ phases (trace (snd (run Demo.node Demo.utils Demo.generator Demo.fresh)))
     = [Printing; Prompting; RunningCommands; WritingFiles; PatchingPackageJSON; Printing]
  /\ starts_before WritingFiles RunningCommands
       (phases (trace (snd (run Demo.node Demo.utils Demo.generator Demo.fresh))))
     = false
  /\ starts_before RunningCommands WritingFiles
       (phases (trace (snd (run Demo.node Demo.utils Demo.generator Demo.fresh))))
     = true.
Proof. vm_compute. repeat split. Qed.

(** Against C10: a [.gitignore] that already lists [node_modules/] keeps
    that line, so the text built has the line although the text read
    includes [node_modules]; nothing is appended but [test-results/], and
    the blank lines at the end are cut. *)
Lemma existing_node_modules_line_is_kept :
  readFileSync Demo.node (js "proj/.gitignore") (fs Demo.own_gitignore)
  = Ok (js "node_modules/" ++ LF ++ js "dist/" ++ LF ++ LF ++ LF)
  /\ includes (js "node_modules/" ++ LF ++ js "dist/" ++ LF ++ LF ++ LF) (js "node_modules")
     = true
  /\ _buildGitIgnore Demo.node Demo.generator Demo.own_gitignore
     = (Ok (js "node_modules/" ++ LF ++ js "dist/" ++ LF ++ js "test-results/" ++ LF),
        Demo.own_gitignore)
  /\ count_line (js "node_modules/")
       (js "node_modules/" ++ LF ++ js "dist/" ++ LF ++ js "test-results/" ++ LF)
     = 1.
Proof. vm_compute. repeat split. Qed.

(** Against C5: with [TEST_OPTIONS] set to the empty text the answers are
    not parsed from it (parsing it throws) and the prompt is shown. *)
Lemma empty_TEST_OPTIONS_still_prompts :
  TEST_OPTIONS Demo.empty_options = Some []
  /\ JSON_parse_options Demo.node [] = Throw (SyntaxError (js "Unexpected token"))
  /\ fst (_askQuestions Demo.node Demo.empty_options) = Ok Demo.TS_answers
  /\ trace (snd (_askQuestions Demo.node Demo.empty_options)) = [Prompted questions].
Proof. vm_compute. repeat split. Qed.

(** Against C7: with an array under [scripts] the patch goes through, the
    script is set on the array, and nothing of it is printed: the
    [package.json] written has its [scripts] as they were. *)
Lemma scripts_array_gets_no_script :
  patchScripts (VObj [(js "scripts", VArr [] [])])
  = Ok (VObj [(js "scripts",
               VArr [] [(PACKAGE_JSON_TEST_SCRIPT_CMD, VStr (js "playwright test"))])])
  /\ _patchPackageJSON Demo.node Demo.utils Demo.generator Demo.scripts_array
     = (Ok tt,
        {| fs := (js "proj/package.json", Demo.text_of (VObj [(js "scripts", VArr [] [])]) ++ LF)
                 :: Demo.assets;
           TEST_OPTIONS := None;
           trace := [CreatedFiles (js "proj")
                       [(js "package.json",
                         Demo.text_of (VObj [(js "scripts", VArr [] [])]) ++ LF)]
                       (Some true)] |})
  /\ lookup PACKAGE_JSON_TEST_SCRIPT_CMD
       (scripts_of (printed (VObj [(js "scripts",
          VArr [] [(PACKAGE_JSON_TEST_SCRIPT_CMD, VStr (js "playwright test"))])])))
     = None.
Proof. vm_compute. repeat split. Qed.

(** Against C8: an absolute test directory puts an absolute path in the
    plan. *)
Lemma absolute_testDir_gives_absolute_path :
  exists files commands,
    fst (_identifyChanges Demo.node Demo.utils Demo.generator Demo.absolute_answers Demo.fresh)
    = Ok (files, commands)
    /\ Map_has files (js "/tmp/e2e/example.spec.ts") = true
    /\ Path.isAbsolute (js "/tmp/e2e/example.spec.ts") = true.
Proof. eexists. eexists. vm_compute. repeat split. Qed.

(* ================================================================== *)
(** * Further properties of the generator *)

(** ** The patch of [package.json], again *)

Section PatchMore.

Lemma get_props (v : value) (k : jsstring) :
  has_props v = true -> Access.get (Some v) k = Ok (lookup k (props_of v)).
Proof. destruct v; simpl; congruence. Qed.

Lemma set_props (v : value) (k : jsstring) (x : value) :
  has_props v = true ->
  Access.set (Some v) k x = Ok (with_props v (assign k x (props_of v))).
Proof. destruct v; simpl; congruence. Qed.

Lemma delete_props (v : value) (k : jsstring) :
  has_props v = true ->
  Access.delete (Some v) k = Ok (with_props v (remove k (props_of v))).
Proof. destruct v; simpl; congruence. Qed.

Lemma truthy_props (v : value) : has_props v = true -> truthy (Some v) = true.
Proof. destruct v; simpl; congruence. Qed.

(** The converse of [patchScripts_inv]: where the accesses go through, so
    does the patch. *)
Lemma patchScripts_complete (packageJSON : value) (no_test : bool) :
  has_props packageJSON = true ->
  has_props (scripts_to_patch packageJSON) = true ->
  Access.optional_includes
    (lookup (js "test") (props_of (scripts_to_patch packageJSON)))
    (js "no test specified") = Ok no_test ->
  patchScripts packageJSON =
  Ok (with_props packageJSON
        (assign (js "scripts")
           (with_props (scripts_to_patch packageJSON)
              (assign PACKAGE_JSON_TEST_SCRIPT_CMD (VStr (js "playwright test"))
                 (if no_test
                  then remove (js "test") (props_of (scripts_to_patch packageJSON))
                  else props_of (scripts_to_patch packageJSON))))
           (props_of packageJSON))).
Proof.
  intros P Q I. unfold patchScripts.
  rewrite (get_props packageJSON _ P). cbn [obind].
  set (scripts := scripts_to_patch packageJSON) in *.
  assert (exists l1,
            (if negb (truthy (lookup (js "scripts") (props_of packageJSON)))
             then Access.set (Some packageJSON) (js "scripts") (VObj [])
             else Ok packageJSON) = Ok (with_props packageJSON l1)
            /\ lookup (js "scripts") l1 = Some scripts
            /\ forall x, assign (js "scripts") x l1
                         = assign (js "scripts") x (props_of packageJSON))
    as (l1 & -> & L1 & A1).
  { unfold scripts, scripts_to_patch.
    destruct (lookup (js "scripts") (props_of packageJSON)) as [s|] eqn:L.
    - destruct (truthy (Some s)) eqn:T; simpl negb; cbv iota.
      + exists (props_of packageJSON). split; [now destruct packageJSON|].
        split; [assumption | reflexivity].
      + rewrite (set_props packageJSON _ _ P). eexists. split; [reflexivity|].
        split; [apply lookup_assign_same | intros x; apply assign_assign].
    - simpl negb. cbv iota.
      rewrite (set_props packageJSON _ _ P). eexists. split; [reflexivity|].
      split; [apply lookup_assign_same | intros x; apply assign_assign]. }
  cbn [obind].
  rewrite get_props by (now rewrite has_props_with_props).
  rewrite (props_of_with_props packageJSON l1 P), L1. cbn [obind].
  rewrite (get_props scripts _ Q). cbn [obind]. rewrite I. cbn [obind].
  destruct no_test.
  - rewrite (delete_props scripts _ Q). cbn [obind]. rewrite mutated_eq.
    rewrite with_props_with_props, (props_of_with_props packageJSON l1 P).
    rewrite get_props by (now rewrite has_props_with_props).
    rewrite (props_of_with_props packageJSON _ P), lookup_assign_same. cbn [obind].
    rewrite set_props by (now rewrite has_props_with_props). cbn [obind].
    rewrite mutated_eq.
    rewrite !with_props_with_props, (props_of_with_props packageJSON _ P).
    rewrite (props_of_with_props scripts _ Q).
    now rewrite !assign_assign, A1.
  - cbn [obind].
    rewrite get_props by (now rewrite has_props_with_props).
    rewrite (props_of_with_props packageJSON l1 P), L1. cbn [obind].
    rewrite (set_props scripts _ _ Q). cbn [obind]. rewrite mutated_eq.
    now rewrite with_props_with_props, (props_of_with_props packageJSON l1 P), A1.
Qed.

Lemma obind_TypeError {A B : Type} (m : outcome A) (k : A -> outcome B) :
  (forall e, m = Throw e -> is_TypeError e = true) ->
  (forall a e, k a = Throw e -> is_TypeError e = true) ->
  forall e, obind m k = Throw e -> is_TypeError e = true.
Proof.
  intros Hm Hk e. destruct m as [a|e']; simpl.
  - apply Hk.
  - intros [= <-]. now apply Hm.
Qed.

Lemma get_TypeError (o : option value) (k : jsstring) (e : Error) :
  Access.get o k = Throw e -> is_TypeError e = true.
Proof. destruct o as [[]|]; simpl; try discriminate; now intros [= <-]. Qed.

Lemma set_TypeError (o : option value) (k : jsstring) (x : value) (e : Error) :
  Access.set o k x = Throw e -> is_TypeError e = true.
Proof. destruct o as [[]|]; simpl; try discriminate; now intros [= <-]. Qed.

Lemma delete_TypeError (o : option value) (k : jsstring) (e : Error) :
  Access.delete o k = Throw e -> is_TypeError e = true.
Proof. destruct o as [[]|]; simpl; try discriminate; now intros [= <-]. Qed.

Lemma optional_includes_TypeError (t : option value) (x : jsstring) (e : Error) :
  Access.optional_includes t x = Throw e -> is_TypeError e = true.
Proof.
  destruct t as [[| | | |elems named|]|]; simpl; try discriminate;
    try (now intros [= <-]).
  destruct (lookup (js "includes") named); [now intros [= <-] | discriminate].
Qed.

Lemma optional_includes_accepts (t : option value) (x : jsstring) :
  (exists b, Access.optional_includes t x = Ok b)
  <-> match t with
      | None | Some VNull | Some (VStr _) => true
      | Some (VArr _ named) =>
          match lookup (js "includes") named with
          | None => true
          | Some _ => false
          end
      | Some _ => false
      end = true.
Proof.
  destruct t as [[| | | |elems named|]|]; simpl;
    try (split; [intros _; reflexivity | intros _; eexists; reflexivity]);
    try (split; [intros (? & ?); discriminate | discriminate]).
  destruct (lookup (js "includes") named).
  - split; [intros (? & ?); discriminate | discriminate].
  - split; [intros _; reflexivity | intros _; eexists; reflexivity].
Qed.

(** X1. The patch goes through exactly on the documents [patch_accepts]
    describes: an object (or array) whose [scripts], when truthy, is an
    object (or array) whose [test], when there, is [null], a string or an
    array. On every other document it throws, and what it throws is a
    [TypeError]. *)
Theorem patchScripts_accepts (packageJSON : value) :
  (patch_accepts packageJSON = true <-> exists patched, patchScripts packageJSON = Ok patched)
  /\ (forall e, patchScripts packageJSON = Throw e -> is_TypeError e = true).
Proof.
  split; [split|].
  - unfold patch_accepts. intros H.
    apply andb_true_iff in H as [H T]. apply andb_true_iff in H as [P Q].
    apply (optional_includes_accepts _ (js "no test specified")) in T as (b & I).
    eexists. exact (patchScripts_complete packageJSON b P Q I).
  - intros (patched & H). apply patchScripts_inv in H. cbv zeta in H.
    destruct H as (P & Q & b & I & _). unfold patch_accepts.
    rewrite P, Q. simpl andb.
    apply (optional_includes_accepts _ (js "no test specified")). now exists b.
  - unfold patchScripts.
    apply obind_TypeError; [apply get_TypeError|]. intros scripts.
    apply obind_TypeError; [destruct (negb _); [apply set_TypeError | discriminate]|].
    intros packageJSON1.
    apply obind_TypeError; [apply get_TypeError|]. intros scripts1.
    apply obind_TypeError; [apply get_TypeError|]. intros test.
    apply obind_TypeError; [apply optional_includes_TypeError|]. intros no_test.
    apply obind_TypeError.
    { destruct no_test; [|discriminate].
      apply obind_TypeError; [apply delete_TypeError | discriminate]. }
    intros packageJSON2.
    apply obind_TypeError; [apply get_TypeError|]. intros scripts2.
    apply obind_TypeError; [apply set_TypeError | discriminate].
Qed.


Lemma keys_assign {A : Type} (k : jsstring) (v : A) (l : list (jsstring * A)) :
  keys (assign k v l) =
  keys l ++ match lookup k l with Some _ => [] | None => [k] end.
Proof.
  unfold keys. induction l as [|[k' v'] l IH]; simpl; [reflexivity|].
  destruct (str_eqb k k') eqn:E; simpl.
  - apply str_eqb_eq in E. subst. now rewrite app_nil_r.
  - now rewrite IH.
Qed.

Lemma keys_printed (l : list (jsstring * value)) :
  keys (map (fun kv => let '(k, x) := kv in (k, printed x)) l) = keys l.
Proof.
  unfold keys. rewrite map_map. apply map_ext. now intros [k x].
Qed.

Lemma lookup_Some_printed (k : jsstring) (l : list (jsstring * value)) :
  match lookup k (map (fun kv => let '(k, x) := kv in (k, printed x)) l) with
  | Some _ => true | None => false
  end = match lookup k l with Some _ => true | None => false end.
Proof. rewrite lookup_printed. now destruct (lookup k l). Qed.

Lemma remove_printed (k : jsstring) (l : list (jsstring * value)) :
  remove k (map (fun kv => let '(k, x) := kv in (k, printed x)) l)
  = map (fun kv => let '(k, x) := kv in (k, printed x)) (remove k l).
Proof.
  unfold remove. induction l as [|[k' v'] l IH]; simpl; [reflexivity|].
  destruct (str_eqb k k'); simpl; now rewrite IH.
Qed.

(** X3. The patch keeps the order of what it finds. The members of the
    document stay in their order, and [scripts] goes last when it was not
    there; the scripts stay in their order, less [test] when that is
    dropped, and [test:e2e] goes last when it was not there. *)
Theorem patchScripts_keeps_order (props : list (jsstring * value)) (patched : value) :
  patchScripts (VObj props) = Ok patched ->
  keys (members (printed patched))
  = keys props ++ match lookup (js "scripts") props with Some _ => [] | None => [js "scripts"] end
  /\ (is_array (lookup (js "scripts") props) = false ->
      let old := scripts_of (printed (VObj props)) in
      let kept :=
        if says_no_test_specified (lookup (js "test") old)
        then remove (js "test") old else old in
      keys (scripts_of (printed patched))
      = keys kept
        ++ match lookup PACKAGE_JSON_TEST_SCRIPT_CMD old with
           | Some _ => []
           | None => [PACKAGE_JSON_TEST_SCRIPT_CMD]
           end).
Proof.
  intros H. apply patchScripts_inv in H. cbv zeta in H.
  destruct H as (_ & Q & b & I & ->). simpl with_props. simpl props_of.
  set (scripts := scripts_to_patch (VObj props)) in *.
  split.
  - rewrite members_printed, keys_printed. apply keys_assign.
  - intros A. cbv zeta.
    assert (is_array (Some scripts) = false) as A'.
    { unfold scripts, scripts_to_patch. simpl props_of.
      destruct (lookup (js "scripts") props) as [s|]; [|reflexivity].
      destruct (truthy (Some s)); [assumption | reflexivity]. }
    rewrite !scripts_of_printed. fold scripts.
    unfold scripts_to_patch at 1. simpl props_of at 1.
    rewrite lookup_assign_same.
    rewrite truthy_props by (now rewrite has_props_with_props).
    destruct scripts as [| | | |elems named|sp]; try discriminate.
    simpl with_props. simpl props_of in *. simpl printed. simpl members.
    rewrite lookup_printed, (says_no_test_specified_printed _ _ I).
    rewrite keys_printed, keys_assign.
    destruct b.
    + rewrite remove_printed, keys_printed.
      rewrite lookup_remove_other by reflexivity.
      rewrite lookup_printed. now destruct (lookup PACKAGE_JSON_TEST_SCRIPT_CMD sp).
    + rewrite keys_printed, lookup_printed.
      now destruct (lookup PACKAGE_JSON_TEST_SCRIPT_CMD sp).
Qed.

End PatchMore.

(** ** The steps of the run, again *)

Section StepsMore.

Context {FS : Type} (node : Node FS) (utils : Utils FS).

Lemma identifyChanges_world (this : Generator) (answers : PromptOptions) (w : World FS) :
  snd (_identifyChanges node utils this answers w) = w.
Proof.
  unfold _identifyChanges, bind, reads, ret, _readAsset.
  cbv beta iota zeta.
  destruct (readFileSync node _ (fs w)) as [config|]; [|reflexivity].
  destruct (installGitHubActions answers); cbv beta iota.
  - destruct (readFileSync node _ (fs w)) as [workflow|]; [|reflexivity].
    cbv beta iota.
    destruct (readFileSync node _ (fs w)) as [example|]; [|reflexivity].
    cbv beta iota. rewrite buildGitIgnore_eq.
    now destruct (if existsSync node _ (fs w) then _ else _).
  - destruct (readFileSync node _ (fs w)) as [example|]; [|reflexivity].
    cbv beta iota. rewrite buildGitIgnore_eq.
    now destruct (if existsSync node _ (fs w) then _ else _).
Qed.

(** X4. Asking and planning leave the project alone. Computing the plan,
    building the text of [.gitignore] and reading an asset change nothing
    of the world, whether they return or throw; the introduction, the
    questions and the guidance change nothing of the file system. *)
Theorem planning_changes_nothing (this : Generator) (answers : PromptOptions)
    (w : World FS) :
  snd (_identifyChanges node utils this answers w) = w
  /\ snd (_buildGitIgnore node this w) = w
  /\ (forall asset, snd (_readAsset node asset w) = w)
  /\ fs (snd (_printIntro node this w)) = fs w
  /\ fs (snd (_askQuestions node w)) = fs w
  /\ fs (snd (_printOutro node utils this answers w)) = fs w.
Proof.
  split; [apply identifyChanges_world|].
  split; [now rewrite buildGitIgnore_eq|].
  split; [reflexivity|].
  split; [|split].
  - destruct (printIntro_after node this w) as (w' & a & b & E & F & _).
    now rewrite E.
  - apply askQuestions_after.
  - destruct (printOutro_after node utils this answers w) as (w' & a & b & E & F & _).
    now rewrite E.
Qed.

(** The first command is always started. *)
Lemma executeCommands_started (cwd : jsstring) (c : Command) (rest : list Command)
    (w : World FS) :
  exists n,
    after w (map (Executed cwd) (firstn (S n) (c :: rest)))
      (snd (executeCommands utils cwd (c :: rest) w)).
Proof.
  rewrite executeCommands_cons.
  pose proof (emit_after (Executed cwd c) w) as (_ & _ & A1).
  pose proof (on_fs_after (run_shell utils cwd (command c))
                (snd (emit (Executed cwd c) w))) as A2.
  pose proof (after_trans _ _ _ _ _ A1 A2) as A12.
  destruct (on_fs (run_shell utils cwd (command c)) (snd (emit (Executed cwd c) w)))
    as [[[]|e] w2].
  - destruct (executeCommands_after utils cwd rest w2) as (n & A3 & _).
    exists n. exact (after_trans _ _ _ _ _ A12 A3).
  - exists 0. exact A12.
Qed.

(** X5. Every run, to its end or not, goes through the phases of a full
    run in their order and stops somewhere: its events make a prefix of
    the full order, the whole of it exactly when the run returns. So no
    file is written before the commands have run, [package.json] is not
    patched before the files are written, and the guidance is printed
    only by a run that returns. *)
Theorem run_phases_prefix (this : Generator) (w : World FS) :
  exists events k,
    after w events (snd (run node utils this w))
    /\ phases events = firstn k (full_order (prompts w))
    /\ k <= List.length (full_order (prompts w))
    /\ (fst (run node utils this w) = Ok tt <-> k = List.length (full_order (prompts w))).
Proof.
  unfold prompts.
  destruct (run node utils this w) as [[[]|e] w'] eqn:R.
  - destruct (run_inv node utils this w w' R)
      as (a & b & answers & files & commands & package & c & d & P & A).
    eexists. exists (List.length (full_order (prompts w))). unfold prompts.
    split; [exact A|].
    destruct (_identifyChanges node utils this answers w) as [r w0] eqn:E.
    simpl in P. subst r.
    apply identifyChanges_inv in E as (_ & _ & ->).
    destruct (truthy (option_map VStr (TEST_OPTIONS w)));
      destruct (existsSync node _ (fs w)); simpl;
      (split; [reflexivity|]); (split; [lia|]); now split.
  - apply run_throws_iff in R.
    destruct R as [w1 I A | w1 w2 answers I A P | w1 w2 w3 answers files commands I A P X
                  | w1 w2 w3 w4 answers files commands I A P X C
                  | w1 w2 w3 w4 w5 answers files commands I A P X C J];
      destruct (printIntro_after node this w) as (w1' & a & b & E1 & F1 & A1);
      rewrite I in E1; injection E1 as <-;
      pose proof (askQuestions_after node w1) as (F2 & A2);
      rewrite A in F2, A2; simpl in F2, A2;
      pose proof A1 as [T1 _]; rewrite T1 in A2;
      pose proof (after_trans _ _ _ _ _ A1 A2) as A12.
    + (* the questions *)
      eexists. exists (if truthy (option_map VStr (TEST_OPTIONS w)) then 1 else 2).
      split; [exact A12|].
      destruct (truthy (option_map VStr (TEST_OPTIONS w))); simpl;
        (split; [reflexivity|]); (split; [lia|]); split; discriminate.
    + (* the plan *)
      pose proof (identifyChanges_world this answers w2) as W.
      rewrite P in W. simpl in W. subst w'.
      eexists. exists (if truthy (option_map VStr (TEST_OPTIONS w)) then 1 else 2).
      split; [exact A12|].
      destruct (truthy (option_map VStr (TEST_OPTIONS w))); simpl;
        (split; [reflexivity|]); (split; [lia|]); split; discriminate.
    + (* a command *)
      apply identifyChanges_inv in P as (-> & _ & ->).
      destruct (existsSync node _ (fs w2)); simpl app in X;
        match type of X with
        | executeCommands _ _ (?c :: ?rest) _ = _ =>
            destruct (executeCommands_started (rootDir this) c rest w2) as (n & A3)
        end;
        rewrite X in A3; simpl snd in A3;
        eexists; exists (if truthy (option_map VStr (TEST_OPTIONS w)) then 2 else 3);
        (split; [exact (after_trans _ _ _ _ _ A12 A3)|]);
        destruct (truthy (option_map VStr (TEST_OPTIONS w)));
        destruct n as [|[|[|n]]]; simpl;
        (split; [reflexivity|]); (split; [lia|]); split; discriminate.
    + (* the files *)
      apply identifyChanges_inv in P as (-> & _ & ->).
      match type of X with
      | executeCommands _ _ ?cs _ = _ =>
          destruct (executeCommands_after utils (rootDir this) cs w2) as (n & A3 & Hn & _)
      end.
      rewrite X in A3, Hn. simpl in A3, Hn. rewrite (Hn eq_refl), firstn_all in A3.
      pose proof (createFiles_after utils (rootDir this) files None w4) as A4.
      rewrite C in A4. simpl in A4.
      eexists. exists (if truthy (option_map VStr (TEST_OPTIONS w)) then 3 else 4).
      split; [exact (after_trans _ _ _ _ _ A12 (after_trans _ _ _ _ _ A3 A4))|].
      destruct (truthy (option_map VStr (TEST_OPTIONS w)));
        destruct (existsSync node _ (fs w2)); simpl;
        (split; [reflexivity|]); (split; [lia|]); split; discriminate.
    + (* the patch *)
      apply identifyChanges_inv in P as (-> & _ & ->).
      match type of X with
      | executeCommands _ _ ?cs _ = _ =>
          destruct (executeCommands_after utils (rootDir this) cs w2) as (n & A3 & Hn & _)
      end.
      rewrite X in A3, Hn. simpl in A3, Hn. rewrite (Hn eq_refl), firstn_all in A3.
      pose proof (createFiles_after utils (rootDir this) files None w4) as A4.
      rewrite C in A4. simpl in A4.
      pose proof (after_trans _ _ _ _ _ A12 (after_trans _ _ _ _ _ A3 A4)) as A124.
      rewrite patchPackageJSON_eq in J.
      destruct (obind _ _) as [patched|e'].
      * pose proof (createFiles_after utils (rootDir this)
                      [(js "package.json", JSON_text node (printed patched) ++ LF)]
                      (Some true) w5) as A5.
        rewrite J in A5. simpl in A5.
        eexists. exists (if truthy (option_map VStr (TEST_OPTIONS w)) then 4 else 5).
        split; [exact (after_trans _ _ _ _ _ A124 A5)|].
        destruct (truthy (option_map VStr (TEST_OPTIONS w)));
          destruct (existsSync node _ (fs w2)); simpl;
          (split; [reflexivity|]); (split; [lia|]); split; discriminate.
      * injection J as _ <-.
        eexists. exists (if truthy (option_map VStr (TEST_OPTIONS w)) then 3 else 4).
        split; [exact A124|].
        destruct (truthy (option_map VStr (TEST_OPTIONS w)));
          destruct (existsSync node _ (fs w2)); simpl;
          (split; [reflexivity|]); (split; [lia|]); split; discriminate.
Qed.

(** X6. When the answers cannot be had (the options of the environment do
    not parse, or the prompt is given up) the run ends there with that
    error: the introduction is printed, the questions are asked if they
    are to be, and that is all; no command is run, no file is created and
    the file system is as it was. *)
Theorem failed_answers_stop_the_run (this : Generator) (w : World FS) (e : Error) :
  match TEST_OPTIONS w with
  | Some (c :: s) => JSON_parse_options node (c :: s)
  | _ => prompt node questions
  end = Throw e ->
  exists a b w',
    run node utils this w = (Throw e, w')
    /\ fs w' = fs w
    /\ after w
         ([ConsoleLog a; ConsoleLog b]
          ++ (if prompts w then [Prompted questions] else []))
         w'.
Proof.
  intros H.
  destruct (printIntro_after node this w) as (w1 & a & b & E1 & F1 & A1).
  pose proof (askQuestions_after node w1) as (F2 & A2).
  pose proof A1 as [T1 _].
  assert (fst (_askQuestions node w1) = Throw e) as Q.
  { rewrite askQuestions_eq, T1.
    destruct (TEST_OPTIONS w) as [[|c s]|]; exact H. }
  destruct (_askQuestions node w1) as [r w2] eqn:E2. simpl in Q, F2, A2. subst r.
  exists a, b, w2. split; [|split].
  - apply run_throws_iff. now apply in_askQuestions with w1.
  - congruence.
  - rewrite T1 in A2. unfold prompts.
    pose proof (after_trans _ _ _ _ _ A1 A2) as A12.
    now destruct (truthy (option_map VStr (TEST_OPTIONS w))).
Qed.

(** X7. What the guard of line 128 achieves: building [.gitignore] from a
    text that was built adds no line [node_modules/]; the text has as
    many of them after as before. *)
Theorem gitignore_rebuilt_keeps_node_modules
    (this : Generator) (w0 w0' w : World FS) (built : jsstring) :
  _buildGitIgnore node this w0 = (Ok built, w0') ->
  existsSync node (Path.join [rootDir this; js ".gitignore"]) (fs w) = true ->
  readFileSync node (Path.join [rootDir this; js ".gitignore"]) (fs w) = Ok built ->
  exists rebuilt,
    _buildGitIgnore node this w = (Ok rebuilt, w)
    /\ count_line (js "node_modules/") rebuilt = count_line (js "node_modules/") built.
Proof.
  intros B0 There Read.
  assert (exists existing, built = expected_gitignore existing) as (existing & ->).
  { rewrite buildGitIgnore_eq in B0.
    destruct (existsSync node _ (fs w0)).
    - destruct (readFileSync node _ (fs w0)) as [text|]; [|discriminate].
      exists (Some text). cbn [obind] in B0. now injection B0 as <- _.
    - exists None. now injection B0 as <- _. }
  eexists. split.
  - rewrite buildGitIgnore_eq, There, Read. cbn [obind]. reflexivity.
  - rewrite expected_gitignore_again.
    destruct (expected_gitignore_shape existing) as (head & -> & _ & _).
    replace ((head ++ js "test-results/" ++ LF) ++ js "test-results/" ++ LF)
      with ((head ++ js "test-results/") ++ LF ++ (js "test-results/" ++ LF ++ []))
      by (now rewrite <- !app_assoc).
    replace (head ++ js "test-results/" ++ LF)
      with ((head ++ js "test-results/") ++ LF ++ [])
      by (now rewrite <- !app_assoc).
    rewrite !count_line_app.
    change (count_line (js "node_modules/") (js "test-results/")) with 0.
    change (count_line (js "node_modules/") []) with 0.
    lia.
Qed.

End StepsMore.

(** ** The files of the plan *)

Section PathMore.

Import Path.

Lemma free_of_rev (c : N) (s : jsstring) : free_of c (rev s) = free_of c s.
Proof.
  induction s as [|x s IH]; [reflexivity|].
  simpl rev. rewrite free_of_app, IH, !free_of_cons. simpl.
  now rewrite andb_true_r, andb_comm.
Qed.

Lemma trailingSeparator_name (a f : jsstring) :
  f <> [] -> has_no_slash f = true -> trailingSeparator (a ++ f) = false.
Proof.
  intros Hne Hf. unfold trailingSeparator. rewrite rev_app_distr.
  assert (has_no_slash (rev f) = true) as Hr
    by (unfold has_no_slash; now rewrite free_of_rev).
  destruct (rev f) as [|c r] eqn:E.
  - apply (f_equal (@rev N)) in E. rewrite rev_involutive in E. contradiction.
  - simpl. rewrite has_no_slash_cons in Hr. apply andb_true_iff in Hr as [Hc _].
    rewrite N.eqb_sym. now apply negb_true_iff.
Qed.

Lemma join_with_snoc_shape (sep : jsstring) (l : list jsstring) (f : jsstring) :
  join_with sep (l ++ [f]) = f
  \/ exists pre, join_with sep (l ++ [f]) = pre ++ sep ++ f.
Proof.
  induction l as [|s l IH]; [now left|]. right.
  destruct l as [|s' l].
  - now exists s.
  - change (join_with sep ((s :: s' :: l) ++ [f]))
      with (s ++ sep ++ join_with sep ((s' :: l) ++ [f])).
    destruct IH as [->|(pre & ->)].
    + now exists s.
    + exists (s ++ sep ++ pre). now rewrite <- !app_assoc.
Qed.

(** Where a proper file name comes last, the normal form is the name
    alone or ends with a slash and the name. *)
Lemma normalize_name_shape (a f : jsstring) (segs : list jsstring) :
  has_no_slash f = true ->
  str_eqb f [] = false -> str_eqb f (js ".") = false ->
  str_eqb f (js "..") = false ->
  segments (a ++ f) = segs ++ [f] ->
  normalize (a ++ f) = f \/ exists pre, normalize (a ++ f) = pre ++ SLASH :: f.
Proof.
  intros Hf E0 E1 E2 Hsegs.
  assert (f <> []) as Hne by (now apply str_eqb_neq in E0).
  pose proof (trailingSeparator_name a f Hne Hf) as T.
  destruct (a ++ f) as [|c p] eqn:P.
  { apply app_eq_nil in P as [_ ->]. contradiction. }
  unfold normalize. cbv zeta. rewrite T.
  assert (normalizeString (c :: p) (negb (isAbsolute (c :: p))) = f
          \/ exists pre, normalizeString (c :: p) (negb (isAbsolute (c :: p)))
                         = pre ++ SLASH :: f) as Q.
  { unfold normalizeString. rewrite Hsegs, fold_left_app. simpl fold_left.
    rewrite normalize_step_name by assumption.
    set (stack := fold_left _ segs []). simpl rev.
    destruct (join_with_snoc_shape [SLASH] (rev stack) f)
      as [->|(pre & ->)]; [now left | right; now exists pre]. }
  destruct Q as [->|(pre & ->)].
  - destruct f as [|x f]; [contradiction|].
    destruct (isAbsolute (c :: p)); [right; now exists [] | now left].
  - destruct (pre ++ SLASH :: f) eqn:Z; [now destruct pre|]. rewrite <- Z.
    destruct (isAbsolute (c :: p)); right; [now exists (js "/" ++ pre) | now exists pre].
Qed.

Lemma join_name_shape (dir f : jsstring) :
  has_no_slash f = true ->
  str_eqb f [] = false -> str_eqb f (js ".") = false ->
  str_eqb f (js "..") = false ->
  join [dir; f] = f \/ exists pre, join [dir; f] = pre ++ SLASH :: f.
Proof.
  intros Hf E0 E1 E2. unfold join.
  destruct dir as [|c dir]; cbn -[normalize]; rewrite E0; cbn -[normalize].
  - apply (normalize_name_shape [] f []); try assumption.
    now apply segments_name.
  - replace (c :: dir ++ SLASH :: f) with (((c :: dir) ++ [SLASH]) ++ f)
      by (now rewrite <- app_assoc).
    apply (normalize_name_shape _ f (segments (c :: dir))); try assumption.
    rewrite <- app_assoc.
    change ([SLASH] ++ f) with (SLASH :: f).
    now rewrite segments_app, (segments_name f Hf).
Qed.

(** A name without a slash, other than the one joined, is not the path. *)
Lemma join_name_differs (t dir f : jsstring) :
  has_no_slash t = true -> str_eqb t f = false ->
  has_no_slash f = true ->
  str_eqb f [] = false -> str_eqb f (js ".") = false ->
  str_eqb f (js "..") = false ->
  str_eqb t (join [dir; f]) = false.
Proof.
  intros Ht Htf Hf E0 E1 E2. apply str_eqb_neq. intros E.
  destruct (join_name_shape dir f Hf E0 E1 E2) as [J|(pre & J)].
  - pose proof (eq_trans E J) as EJ. apply str_eqb_neq in Htf. contradiction.
  - pose proof (eq_trans E J) as EJ. rewrite EJ in Ht.
    rewrite has_no_slash_app, has_no_slash_cons in Ht.
    rewrite N.eqb_refl in Ht. simpl in Ht. now rewrite andb_false_r in Ht.
Qed.

End PathMore.

Section PlanMore.

Context {FS : Type} (node : Node FS) (utils : Utils FS).

(** A plan that was computed, with what was read for it. *)
Lemma identifyChanges_contents (this : Generator) (answers : PromptOptions)
    (w w' : World FS) (files : Files) (commands : list Command) :
  _identifyChanges node utils this answers w = (Ok (files, commands), w') ->
  let ext := languagetoFileExtension utils (language answers) in
  exists config workflow example gitIgnore,
    readFileSync node (asset_path node (js "playwright.config." ++ ext)) (fs w) = Ok config
    /\ (installGitHubActions answers = true ->
        readFileSync node (asset_path node (js "github-actions.yml")) (fs w) = Ok workflow)
    /\ readFileSync node (asset_path node (js "example.spec." ++ ext)) (fs w) = Ok example
    /\ (if existsSync node (Path.join [rootDir this; js ".gitignore"]) (fs w)
        then text <-- readFileSync node (Path.join [rootDir this; js ".gitignore"]) (fs w) ;;
             Ok (expected_gitignore (Some text))
        else Ok (expected_gitignore None)) = Ok gitIgnore
    /\ files =
       Map_set
         (Map_set
            (let files0 :=
               Map_set [] (js "playwright.config." ++ ext)
                 (executeTemplate utils config [(js "testDir", testDir answers)]) in
             if installGitHubActions answers
             then Map_set files0 (js ".github/workflows/playwright.yml")
                    (executeTemplate utils workflow
                       [(js "installDepsCommand",
                         if is_npm (packageManager this) then js "npm ci" else js "yarn");
                        (js "runTestsCommand", commandToRunTests (packageManager this))])
             else files0)
            (Path.join [testDir answers; js "example.spec." ++ ext]) example)
         (js ".gitignore") gitIgnore.
Proof.
  intros H. cbv zeta. unfold _identifyChanges in H.
  bind_inv H as config w1 E1. rewrite readAsset_eq in E1. injection E1 as E1 <-.
  bind_inv H as files1 w2 E2.
  destruct (installGitHubActions answers) eqn:F.
  - bind_inv E2 as workflow w3 E3.
    rewrite readAsset_eq in E3. injection E3 as E3 <-. injection E2 as <- <-.
    bind_inv H as example w3 E4. rewrite readAsset_eq in E4. injection E4 as E4 <-.
    bind_inv H as hasPackageJSON w4 E5. injection E5 as _ <-.
    bind_inv H as gitIgnore w5 E6.
    rewrite buildGitIgnore_eq in E6. injection E6 as E6 _.
    injection H as <- _ _.
    exists config, workflow, example, gitIgnore.
    split; [exact E1|]. split; [intros _; exact E3|].
    split; [exact E4|]. split; [exact E6 | reflexivity].
  - injection E2 as <- <-.
    bind_inv H as example w3 E4. rewrite readAsset_eq in E4. injection E4 as E4 <-.
    bind_inv H as hasPackageJSON w4 E5. injection E5 as _ <-.
    bind_inv H as gitIgnore w5 E6.
    rewrite buildGitIgnore_eq in E6. injection E6 as E6 _.
    injection H as <- _ _.
    exists config, [], example, gitIgnore.
    split; [exact E1|]. split; [discriminate|].
    split; [exact E4|]. split; [exact E6 | reflexivity].
Qed.

(** X8. The files of a plan, with what they hold and in the order they
    were set: the configuration, which is its template with the test
    directory filled in; the workflow, when it is asked for, which is its
    template with the commands of the package manager filled in; the
    example test, as the asset has it, under the test directory; and
    [.gitignore], with the text built for it. No entry overwrites another
    (the extension is taken to be free of slashes). *)
Theorem plan_contents (this : Generator) (answers : PromptOptions)
    (w w' : World FS) (files : Files) (commands : list Command) :
  has_no_slash (languagetoFileExtension utils (language answers)) = true ->
  _identifyChanges node utils this answers w = (Ok (files, commands), w') ->
  let ext := languagetoFileExtension utils (language answers) in
  exists config workflow example gitIgnore,
    readFileSync node (asset_path node (js "playwright.config." ++ ext)) (fs w) = Ok config
    /\ (installGitHubActions answers = true ->
        readFileSync node (asset_path node (js "github-actions.yml")) (fs w) = Ok workflow)
    /\ readFileSync node (asset_path node (js "example.spec." ++ ext)) (fs w) = Ok example
    /\ _buildGitIgnore node this w = (Ok gitIgnore, w)
    /\ files =
       [(js "playwright.config." ++ ext,
         executeTemplate utils config [(js "testDir", testDir answers)])]
       ++ (if installGitHubActions answers
           then [(js ".github/workflows/playwright.yml",
                  executeTemplate utils workflow
                    [(js "installDepsCommand",
                      if is_npm (packageManager this) then js "npm ci" else js "yarn");
                     (js "runTestsCommand", commandToRunTests (packageManager this))])]
           else [])
       ++ [(Path.join [testDir answers; js "example.spec." ++ ext], example);
           (js ".gitignore", gitIgnore)].
Proof.
  intros Hext H. apply identifyChanges_contents in H. cbv zeta in H |- *.
  destruct H as (config & workflow & example & gitIgnore & R1 & R2 & R3 & R4 & ->).
  set (ext := languagetoFileExtension utils (language answers)) in *.
  set (cfg := js "playwright.config." ++ ext) in *.
  set (key := Path.join [testDir answers; js "example.spec." ++ ext]) in *.
  assert (str_eqb key cfg = false) as D2.
  { rewrite str_eqb_sym. apply join_name_differs; try reflexivity.
    - unfold cfg. now rewrite has_no_slash_app, Hext.
    - now rewrite has_no_slash_app, Hext. }
  assert (str_eqb key (js ".github/workflows/playwright.yml") = false) as D3.
  { rewrite str_eqb_sym. now apply example_is_not_workflow. }
  assert (str_eqb (js ".gitignore") key = false) as D6.
  { apply join_name_differs; try reflexivity. now rewrite has_no_slash_app, Hext. }
  exists config, workflow, example, gitIgnore.
  split; [exact R1|]. split; [exact R2|]. split; [exact R3|].
  split; [rewrite buildGitIgnore_eq; now rewrite R4|].
  unfold Map_set.
  destruct (installGitHubActions answers).
  - cbn [assign app].
    change (str_eqb (js ".github/workflows/playwright.yml") cfg) with false. cbv iota.
    cbn [assign]. rewrite D2. cbn [assign]. rewrite D3. cbn [assign].
    change (str_eqb (js ".gitignore") cfg) with false. cbv iota. cbn [assign].
    change (str_eqb (js ".gitignore") (js ".github/workflows/playwright.yml")) with false.
    cbv iota. cbn [assign]. rewrite D6. reflexivity.
  - cbn [assign app]. rewrite D2. cbn [assign].
    change (str_eqb (js ".gitignore") cfg) with false. cbv iota. cbn [assign].
    rewrite D6. reflexivity.
Qed.

(** X9. The plan is computed exactly when what it needs to read can be
    read: the two assets of the chosen language, the asset of the
    workflow when it is asked for, and [.gitignore] when it exists. A
    project without [package.json] or without [.gitignore] does not stop
    it. *)
Theorem plan_is_computed_iff (this : Generator) (answers : PromptOptions)
    (w : World FS) :
  plan_inputs_readable node utils this answers (fs w)
  <-> exists files commands,
        _identifyChanges node utils this answers w = (Ok (files, commands), w).
Proof.
  unfold plan_inputs_readable, asset_path. cbv zeta. split.
  - intros ((config & R1) & R2 & (example & R3) & R4).
    unfold _identifyChanges, bind, reads, ret, _readAsset.
    cbv beta iota zeta. rewrite R1. cbv beta iota.
    destruct (installGitHubActions answers); cbv beta iota.
    + destruct (R2 eq_refl) as (workflow & ->). cbv beta iota.
      rewrite R3. cbv beta iota. rewrite buildGitIgnore_eq.
      destruct (existsSync node (Path.join [rootDir this; js ".gitignore"]) (fs w)).
      * destruct (R4 eq_refl) as (text & ->). cbn [obind]. now eexists; eexists.
      * now eexists; eexists.
    + rewrite R3. cbv beta iota. rewrite buildGitIgnore_eq.
      destruct (existsSync node (Path.join [rootDir this; js ".gitignore"]) (fs w)).
      * destruct (R4 eq_refl) as (text & ->). cbn [obind]. now eexists; eexists.
      * now eexists; eexists.
  - intros (files & commands & H). apply identifyChanges_contents in H.
    cbv zeta in H. unfold asset_path in H.
    destruct H as (config & workflow & example & gitIgnore & R1 & R2 & R3 & R4 & _).
    split; [now exists config|]. split; [intros F; exists workflow; now apply R2|].
    split; [now exists example|].
    intros T. rewrite T in R4.
    match goal with
    | |- exists text, ?r = Ok text =>
        change ((text <-- r ;; Ok (expected_gitignore (Some text))) = Ok gitIgnore) in R4;
        destruct r as [text|]; [now exists text | discriminate R4]
    end.
Qed.

(** X10. The command the guidance and the workflow give for running the
    tests runs the script the patch writes: it is [yarn] or [npm run]
    followed by the name under which the patched [package.json] has
    [playwright test]. *)
Theorem commandToRunTests_runs_the_script (pm : PackageManager)
    (props : list (jsstring * value)) (patched : value) :
  patchScripts (VObj props) = Ok patched ->
  is_array (lookup (js "scripts") props) = false ->
  exists script,
    commandToRunTests pm = (if is_yarn pm then js "yarn " else js "npm run ") ++ script
    /\ lookup script (scripts_of (printed patched)) = Some (VStr (js "playwright test")).
Proof.
  intros H A. exists PACKAGE_JSON_TEST_SCRIPT_CMD. split; [now destruct pm|].
  destruct (patched_document _ _ H) as (_ & _ & _ & _ & Script).
  now apply (Script props).
Qed.

End PlanMore.

(** ** On the small installation *)


Lemma patchScripts_keeps_order_witness :
  keys (members (printed Demo.app_patched)) = [js "name"; js "scripts"]
  /\ keys (scripts_of (printed Demo.app_patched)) = [js "build"; js "test:e2e"].
Proof.
  assert (patchScripts (VObj Demo.app_members) = Ok Demo.app_patched) as Patched
    by (vm_compute; reflexivity).
  destruct (patchScripts_keeps_order Demo.app_members Demo.app_patched Patched)
    as (Members & Scripts).
  split; [exact Members | exact (Scripts eq_refl)].
Defined.

Lemma failed_answers_stop_the_run_witness :
  exists a b w',
    run Demo.node Demo.utils Demo.generator Demo.second_run'
    = (Throw (SyntaxError (js "Unexpected token")), w')
    /\ fs w' = fs Demo.second_run'
    /\ after Demo.second_run'
         ([ConsoleLog a; ConsoleLog b]
          ++ (if prompts Demo.second_run' then [Prompted questions] else []))
         w'.
Proof.
  exact (failed_answers_stop_the_run Demo.node Demo.utils Demo.generator
           Demo.second_run' (SyntaxError (js "Unexpected token")) eq_refl).
Defined.

Lemma gitignore_rebuilt_keeps_node_modules_witness :
  exists rebuilt,
    _buildGitIgnore Demo.node Demo.generator Demo.second_run = (Ok rebuilt, Demo.second_run)
    /\ count_line (js "node_modules/") rebuilt
       = count_line (js "node_modules/") (js "node_modules/" ++ LF ++ js "test-results/" ++ LF).
Proof.
  exact (gitignore_rebuilt_keeps_node_modules Demo.node Demo.generator
           Demo.fresh Demo.fresh Demo.second_run
           (js "node_modules/" ++ LF ++ js "test-results/" ++ LF)
           eq_refl eq_refl eq_refl).
Defined.

Lemma plan_contents_witness :
  fst Demo.TS_plan =
  [(js "playwright.config.ts", js "config ts");
   (js ".github/workflows/playwright.yml", js "workflow");
   (js "e2e/example.spec.ts", js "example ts");
   (js ".gitignore", js "node_modules/" ++ LF ++ js "test-results/" ++ LF)].
Proof.
  assert (_identifyChanges Demo.node Demo.utils Demo.generator Demo.TS_answers Demo.fresh
          = (Ok (fst Demo.TS_plan, snd Demo.TS_plan), Demo.fresh)) as Plan
    by (vm_compute; reflexivity).
  destruct (plan_contents Demo.node Demo.utils Demo.generator Demo.TS_answers
              Demo.fresh Demo.fresh (fst Demo.TS_plan) (snd Demo.TS_plan) eq_refl Plan)
    as (config & workflow & example & gitIgnore & R1 & R2 & R3 & R4 & Files).
  specialize (R2 eq_refl). vm_compute in R1, R2, R3, R4.
  injection R1 as <-. injection R2 as <-. injection R3 as <-. injection R4 as <-.
  exact Files.
Defined.

Lemma commandToRunTests_runs_the_script_witness :
  exists script,
    commandToRunTests yarn = js "yarn " ++ script
    /\ lookup script (scripts_of (printed Demo.app_patched)) = Some (VStr (js "playwright test")).
Proof.
  assert (patchScripts (VObj Demo.app_members) = Ok Demo.app_patched) as Patched
    by (vm_compute; reflexivity).
  exact (commandToRunTests_runs_the_script yarn Demo.app_members Demo.app_patched
           Patched eq_refl).
Defined.
